(** * Sales dashboard: the filter and aggregation pipeline of [main.py]

    A shallow embedding of the pandas code of [src/main.py]
    ([filter_data], [filter_data_by_date], [get_top_categories], the
    default substitution of the sidebar and the [overall_analysis]
    aggregation), with the properties of the specification stated over it.

    Modelling conventions.
    - A [DataFrame] is the list of its rows, in order, each with its index
      label.  Labels may repeat: the label lookup and the alignment of
      two series follow pandas there too.
    - The price columns and the totals computed from them are exact
      rationals ([Q]): the rounding of float64 is not modelled, and no
      property below regroups the terms of a sum.  The outcome of a
      float division is a [float], so that the IEEE results of a
      division by zero (infinities and NaN) are values of the model.
      The quantity column is int64: its sums wrap around.
    - A [Timestamp] is NaT, a tz-naive wall-clock time or a tz-aware
      instant; [to_datetime] is [pd.to_datetime(..., utc=True)].
    - A Python exception is a [Raise] result; the in-place assignment to
      [_data['orderDate']] is explicit: both filter functions return the
      content of the caller's DataFrame after the call next to their
      result.
    - The [st.cache_data] decorators are not modelled: the definitions
      are the bodies of the functions. *)

From Stdlib Require Import List String ZArith QArith Bool Arith Lia.
From Stdlib Require Import Permutation Sorted.
From Stdlib Require Import Lqa.
Import ListNotations.

Local Open Scope string_scope.
Local Open Scope nat_scope.

(** ** Values *)

Inductive Timestamp : Type :=
| NaT
| Naive (wall : Z)
| Aware (utc : Z) (offset : Z).

(** [pd.to_datetime(t, utc=True)] on one value: a naive time is taken as
    UTC, an aware one is converted to UTC (same instant). *)
Definition to_datetime (t : Timestamp) : Timestamp :=
  match t with
  | NaT => NaT
  | Naive w => Aware w 0
  | Aware u _ => Aware u 0
  end.

Inductive exn : Type :=
| Exception (class_name : string).

Definition TypeError : exn := Exception "TypeError".
Definition InvalidRange : exn := Exception "InvalidRange".

Inductive result (A : Type) : Type :=
| Ok (a : A)
| Raise (e : exn).
Arguments Ok {A} a.
Arguments Raise {A} e.

Definition bind {A B : Type} (m : result A) (k : A -> result B) : result B :=
  match m with
  | Ok a => k a
  | Raise e => Raise e
  end.

Notation "x <- m ;; k" := (bind m (fun x => k))
  (at level 61, m at next level, right associativity).

(** The outcome of a float64 division. *)
Inductive float : Type :=
| Finite (q : Q)
| PosInf
| NegInf
| NaN.

(** [a / b] on float64 values as NumPy computes it: no exception, the
    quotient when [b] is not zero, and otherwise NaN for [0 / 0] and the
    infinity of the sign of [a]. *)
Definition zero_division (a : Q) : float :=
  match Qcompare a 0 with
  | Eq => NaN
  | Gt => PosInf
  | Lt => NegInf
  end.

Definition truediv (a b : Q) : float :=
  if Qeq_bool b 0 then zero_division a else Finite (a / b).

Definition fmul (x : float) (c : Q) : float :=
  match x with
  | Finite q => Finite (q * c)
  | PosInf => PosInf
  | NegInf => NegInf
  | NaN => NaN
  end.


(** ** Rows, series and frames *)

Record Row : Type := mkRow {
  orderDate : Timestamp;
  categoryName : string;
  storeName : string;
  brandName : string;
  productName : string;
  sellingPrice : Q;
  costPrice : Q;
  quantity : Z
}.

Definition label := nat.
Definition Series (A : Type) := list (label * A).
Definition DataFrame := list (label * Row).

Definition index {A : Type} (s : list (label * A)) : list label := map fst s.
Definition values {A : Type} (s : list (label * A)) : list A := map snd s.

(** [df[c]] for a column [c]. *)
Definition col {A : Type} (c : Row -> A) (df : DataFrame) : Series A :=
  map (fun lr => (fst lr, c (snd lr))) df.

Definition set_orderDate (r : Row) (t : Timestamp) : Row :=
  mkRow t (categoryName r) (storeName r) (brandName r) (productName r)
        (sellingPrice r) (costPrice r) (quantity r).

(** [df['orderDate'] = pd.to_datetime(df['orderDate'], utc=True)]: the
    content of [df] after the assignment. *)
Definition normalize_row (r : Row) : Row :=
  set_orderDate r (to_datetime (orderDate r)).

Definition assign_orderDate_utc (df : DataFrame) : DataFrame :=
  map (fun lr => (fst lr, normalize_row (snd lr))) df.

(** Comparison of two timestamps: NaT compares false, a naive and an
    aware time cannot be compared. *)
Definition ts_le (a b : Timestamp) : result bool :=
  match a, b with
  | NaT, _ => Ok false
  | _, NaT => Ok false
  | Naive x, Naive y => Ok (x <=? y)%Z
  | Aware x _, Aware y _ => Ok (x <=? y)%Z
  | _, _ => Raise TypeError
  end.

Fixpoint mapM {A B : Type} (f : A -> result B) (l : list A) : result (list B) :=
  match l with
  | [] => Ok []
  | a :: l' => b <- f a ;; bs <- mapM f l' ;; Ok (b :: bs)
  end.

(** [s >= bound] and [s <= bound] for a datetime series and a scalar
    that may be [None]: comparing with [None] raises TypeError whatever
    the series holds. *)
Definition Series_ge (s : Series Timestamp) (bound : option Timestamp)
  : result (list bool) :=
  match bound with
  | None => Raise TypeError
  | Some b => mapM (fun t => ts_le b t) (values s)
  end.

Definition Series_le (s : Series Timestamp) (bound : option Timestamp)
  : result (list bool) :=
  match bound with
  | None => Raise TypeError
  | Some b => mapM (fun t => ts_le t b) (values s)
  end.

(** [s.isin(allowed)]. *)
Definition mem (x : string) (l : list string) : bool :=
  existsb (String.eqb x) l.

Definition isin (s : Series string) (allowed : list string) : list bool :=
  map (fun v => mem v allowed) (values s).

(** [m1 & m2] on boolean masks over the same index. *)
Definition mask_and (m1 m2 : list bool) : list bool :=
  map (fun p => andb (fst p) (snd p)) (combine m1 m2).

(** [df[mask]]: the rows at which the mask holds, labels kept. *)
Definition bool_index (df : DataFrame) (mask : list bool) : DataFrame :=
  map fst (filter snd (combine df mask)).

(** ** [filter_data] (main.py, lines 23-36)

    The first component is the content of [_data] after the call. *)
Definition filter_data (_data : DataFrame) (categories stores : list string)
    (start_date end_date : option Timestamp) : DataFrame * result DataFrame :=
  let start_date := option_map to_datetime start_date in
  let end_date := option_map to_datetime end_date in
  let _data := assign_orderDate_utc _data in
  (_data,
   m_ge <- Series_ge (col orderDate _data) start_date ;;
   m_le <- Series_le (col orderDate _data) end_date ;;
   let m_cat := isin (col categoryName _data) categories in
   let m_store := isin (col storeName _data) stores in
   let mask := mask_and (mask_and (mask_and m_ge m_le) m_cat) m_store in
   Ok (bool_index _data mask)).

(** ** Group-by and aggregation *)

(** [s.unique()]: the distinct values in order of first appearance. *)
Fixpoint unique (l : list string) : list string :=
  match l with
  | [] => []
  | x :: l' => x :: filter (fun y => negb (String.eqb x y)) (unique l')
  end.

Fixpoint insert_key (k : string) (ks : list string) : list string :=
  match ks with
  | [] => [k]
  | k' :: ks' => if String.leb k k' then k :: ks else k' :: insert_key k ks'
  end.

Definition sort_keys (ks : list string) : list string :=
  fold_right insert_key [] ks.

(** The keys of a group-by: the distinct values, ascending. *)
Definition group_keys (key_of : Row -> string) (df : DataFrame) : list string :=
  sort_keys (unique (values (col key_of df))).

(** [df.groupby(key)] with the default [sort=True]: one group per distinct
    key, keys ascending, each group holding its rows in frame order. *)
Definition groupby (key_of : Row -> string) (df : DataFrame)
  : list (string * DataFrame) :=
  map (fun k => (k, filter (fun lr => String.eqb (key_of (snd lr)) k) df))
      (group_keys key_of df).

(** [df.loc[labels, c]]: for each label in turn, the rows carrying it. *)
Definition loc {A : Type} (df : DataFrame) (labels : list label) (c : Row -> A)
  : Series A :=
  flat_map (fun l => col c (filter (fun lr => Nat.eqb (fst lr) l) df)) labels.

Fixpoint index_equals (a b : list label) : bool :=
  match a, b with
  | [], [] => true
  | l :: a', l' :: b' => Nat.eqb l l' && index_equals a' b'
  | _, _ => false
  end.

(** [x * y].  Two series with the same index are multiplied position
    by position.  Otherwise they are aligned on their labels (an outer
    join): an entry of [x] is paired with every entry of [y] that
    carries its label, so that repeated labels give all the pairs; a
    label that only one side has gives NaN, here [None].  The order of
    the aligned entries is that of [x], then the labels only [y] has. *)
Definition Series_mul (x : Series Q) (y : Series Z) : Series (option Q) :=
  if index_equals (index x) (index y)
  then map (fun p => (fst (fst p),
                      Some (snd (fst p) * inject_Z (snd (snd p)))%Q))
           (combine x y)
  else
    (flat_map
      (fun lv =>
         match filter (fun lq => Nat.eqb (fst lq) (fst lv)) y with
         | [] => [(fst lv, None)]
         | lq :: ys =>
             map (fun lq' => (fst lv, Some (snd lv * inject_Z (snd lq'))%Q))
                 (lq :: ys)
         end) x
    ++ map (fun lq => (fst lq, @None Q))
           (filter (fun lq => negb (existsb (Nat.eqb (fst lq)) (index x))) y))%list.

(** [s.sum()] on a float64 series: NaN is skipped.  The additions are
    those of exact rationals: the rounding of float64 addition is not
    modelled, and no property below regroups the terms of a sum. *)
Fixpoint Series_sum (s : Series (option Q)) : Q :=
  match s with
  | [] => 0%Q
  | (_, Some q) :: s' => (q + Series_sum s')%Q
  | (_, None) :: s' => Series_sum s'
  end.

(** int64 arithmetic: the value left by an addition that wraps around. *)
Definition wrap_int64 (z : Z) : Z :=
  ((z + 2 ^ 63) mod 2 ^ 64 - 2 ^ 63)%Z.

(** The ['sum'] of an int64 column: the additions wrap around
    silently. *)
Fixpoint Series_sum_Z (s : Series Z) : Z :=
  match s with
  | [] => 0%Z
  | (_, z) :: s' => wrap_int64 (z + Series_sum_Z s')
  end.

(** [x * df.loc[x.index, 'quantity']] for the series [x] of one group,
    and [lambda x: (x * df.loc[x.index, 'quantity']).sum()]. *)
Definition product_series (df : DataFrame) (x : Series Q) : Series (option Q) :=
  Series_mul x (loc df (index x) quantity).

Definition times_quantity_sum (df : DataFrame) (x : Series Q) : Q :=
  Series_sum (product_series df x).

(** One row of [groupby(key).agg(total_sales=..., total_cost=...,
    total_quantity=...).reset_index()], then of the table with its
    [profit] and [profit_margin] columns. *)
Record Totals : Type := mkTotals {
  t_key : string;
  t_sales : Q;
  t_cost : Q;
  t_quantity : Z
}.

Record AggRow : Type := mkAggRow {
  key : string;
  total_sales : Q;
  total_cost : Q;
  total_quantity : Z;
  profit : Q;
  profit_margin : float
}.

Definition groupby_agg (key_of : Row -> string) (df : DataFrame) : list Totals :=
  map (fun kg =>
         mkTotals (fst kg)
                  (times_quantity_sum df (col sellingPrice (snd kg)))
                  (times_quantity_sum df (col costPrice (snd kg)))
                  (Series_sum_Z (col quantity (snd kg))))
      (groupby key_of df).

(** The two profit-margin formulas of main.py: line 60 and line 167. *)
Definition margin_on_sales (profit sales cost : Q) : float :=
  fmul (truediv profit sales) 100.

Definition margin_on_sales_plus_cost (profit sales cost : Q) : float :=
  fmul (truediv profit (sales + cost)) 100.

Definition with_profit (margin : Q -> Q -> Q -> float) (t : Totals) : AggRow :=
  let profit := (t_sales t - t_cost t)%Q in
  mkAggRow (t_key t) (t_sales t) (t_cost t) (t_quantity t) profit
           (margin profit (t_sales t) (t_cost t)).

(** The aggregation of lines 53-60 and that of lines 157-167, for any
    grouping column. *)
Definition aggregate_by_date (key_of : Row -> string) (df : DataFrame) : list AggRow :=
  map (with_profit margin_on_sales) (groupby_agg key_of df).

Definition aggregate_overall (key_of : Row -> string) (df : DataFrame) : list AggRow :=
  map (with_profit margin_on_sales_plus_cost) (groupby_agg key_of df).

(** ** [filter_data_by_date] (main.py, lines 40-62) *)
Definition filter_data_by_date (_data : DataFrame)
    (start_date end_date : option Timestamp)
  : DataFrame * result (DataFrame * list AggRow) :=
  let start_date := option_map to_datetime start_date in
  let end_date := option_map to_datetime end_date in
  let _data := assign_orderDate_utc _data in
  (_data,
   m_ge <- Series_ge (col orderDate _data) start_date ;;
   m_le <- Series_le (col orderDate _data) end_date ;;
   let date_filtered_data := bool_index _data (mask_and m_ge m_le) in
   let category_aggregated := aggregate_by_date categoryName date_filtered_data in
   Ok (date_filtered_data, category_aggregated)).

(** ** [overall_analysis] (main.py, lines 155-167): computed only when
    [filtered_data] has rows. *)
Definition overall_analysis (filtered_data : DataFrame) : option (list AggRow) :=
  if 0 <? List.length filtered_data
  then Some (aggregate_overall categoryName filtered_data)
  else None.

(** ** Defaults of the sidebar *)

Fixpoint insert_count (p : string * nat) (l : list (string * nat))
  : list (string * nat) :=
  match l with
  | [] => [p]
  | q :: l' => if snd q <=? snd p then p :: l else q :: insert_count p l'
  end.

(** Each distinct value of a series with its number of occurrences, in
    order of first appearance. *)
Definition counted (s : Series string) : list (string * nat) :=
  map (fun v => (v, count_occ string_dec (values s) v)) (unique (values s)).

(** [s.value_counts()]: each distinct value with its number of rows,
    most frequent first, equal counts in order of first appearance. *)
Definition value_counts (s : Series string) : list (string * nat) :=
  fold_right insert_count [] (counted s).

Definition head {A : Type} (n : nat) (l : list A) : list A := firstn n l.

(** main.py, lines 67-68 and 72-73. *)
Definition get_top_categories (data : DataFrame) (n : nat) : list string :=
  map fst (head n (value_counts (col categoryName data))).

Definition get_top_stores (data : DataFrame) (n : nat) : list string :=
  map fst (head n (value_counts (col storeName data))).

(** main.py, lines 106-107 and 114: the number of distinct categories
    and the initial value of the [n_categories] input. *)
Definition n_categories_available (data : DataFrame) : nat :=
  List.length (unique (values (col categoryName data))).

Definition n_stores_available (data : DataFrame) : nat :=
  List.length (unique (values (col storeName data))).

Definition default_n_categories (data : DataFrame) : nat :=
  Nat.min 250 (n_categories_available data).

(** [sidebar if sidebar else top] (lines 143-144): an empty list is
    false. *)
Definition selection_or_default (sidebar top : list string) : list string :=
  match sidebar with
  | [] => top
  | _ :: _ => sidebar
  end.

(** Lines 119, 132 and 143-147: the call of [filter_data] made by the
    script for the sidebar's inputs. *)
Definition dashboard_filter (data : DataFrame) (n_categories : nat)
    (selected_categories_sidebar selected_stores_sidebar : list string)
    (start_date end_date : Timestamp) : DataFrame * result DataFrame :=
  let top_categories := get_top_categories data n_categories in
  let top_stores := get_top_stores data (n_stores_available data) in
  let selected_categories :=
    selection_or_default selected_categories_sidebar top_categories in
  let selected_stores :=
    selection_or_default selected_stores_sidebar top_stores in
  filter_data data selected_categories selected_stores
              (Some start_date) (Some end_date).

(** ** The analysis block of main.py (lines 141-183)

    The analysis functions live in modules that are not part of these
    files: a call is recorded with the frames and the selection lists it
    is handed, in the order of lines 170-177. *)
Inductive analysis : Type :=
| category_performance_analysis
| weekly_sales_analysis
| daily_sales_analysis
| store_performance_analysis
| hourly_sales_analysis
| profit_margin_analysis
| top_products_analysis.

Record call : Type := mkCall {
  callee : analysis;
  frames : list DataFrame;
  selections : list (list string)
}.

Inductive outcome : Type :=
| Analysed (overall : list AggRow) (calls : list call)
| Warning (message : string)
| Unhandled (e : exn).

(** The calls of lines 170-177, in order, with their arguments. *)
Definition analysis_calls (data filtered_data date_filtered_data : DataFrame)
    (selected_categories selected_stores top_categories : list string)
  : list call :=
  [mkCall category_performance_analysis [filtered_data]
          [selected_categories; selected_stores];
   mkCall weekly_sales_analysis [filtered_data]
          [selected_categories; top_categories];
   mkCall daily_sales_analysis [filtered_data]
          [selected_categories; selected_stores];
   mkCall store_performance_analysis [data; date_filtered_data]
          [selected_categories; selected_stores];
   mkCall hourly_sales_analysis [filtered_data] [selected_categories];
   mkCall profit_margin_analysis [filtered_data] [selected_categories];
   mkCall top_products_analysis [filtered_data] [selected_categories]].

(** The first component is the content of [data] when the block ends:
    both filter functions have written its orderDate column. *)
Definition dashboard (data : DataFrame) (n_categories : nat)
    (selected_categories_sidebar selected_stores_sidebar : list string)
    (start_date end_date : Timestamp) : DataFrame * outcome :=
  let top_categories := get_top_categories data n_categories in
  let top_stores := get_top_stores data (n_stores_available data) in
  let selected_categories :=
    selection_or_default selected_categories_sidebar top_categories in
  let selected_stores :=
    selection_or_default selected_stores_sidebar top_stores in
  let (data1, r1) :=
    filter_data data selected_categories selected_stores
                (Some start_date) (Some end_date) in
  match r1 with
  | Raise e => (data1, Unhandled e)
  | Ok filtered_data =>
      let (data2, r2) :=
        filter_data_by_date data1 (Some start_date) (Some end_date) in
      match r2 with
      | Raise e => (data2, Unhandled e)
      | Ok (date_filtered_data, category_aggregated) =>
          match overall_analysis filtered_data with
          | Some overall =>
              (data2,
               Analysed overall
                 (analysis_calls data2 filtered_data date_filtered_data
                                 selected_categories selected_stores
                                 top_categories))
          | None =>
              (data2, Warning "No data found for the selected criteria.")
          end
      end
  end.

(** ** [filter_data] of main_bakcup.py (lines 24-35): one dimension,
    [brandName]. *)
Module Backup.

Definition filter_data (_data : DataFrame) (brands : list string)
    (start_date end_date : option Timestamp) : DataFrame * result DataFrame :=
  let start_date := option_map to_datetime start_date in
  let end_date := option_map to_datetime end_date in
  let _data := assign_orderDate_utc _data in
  (_data,
   m_ge <- Series_ge (col orderDate _data) start_date ;;
   m_le <- Series_le (col orderDate _data) end_date ;;
   let m_brand := isin (col brandName _data) brands in
   Ok (bool_index _data (mask_and (mask_and m_ge m_le) m_brand))).

(** main_bakcup.py, lines 39-40. *)
Definition get_top_brands (data : DataFrame) (n : nat) : list string :=
  map fst (head n (value_counts (col brandName data))).

(** Lines 73-74: [data['brandName'].unique()] and its length. *)
Definition unique_brands (data : DataFrame) : list string :=
  unique (values (col brandName data)).

Definition n_brands_available (data : DataFrame) : nat :=
  List.length (unique_brands data).

(** Lines 97-99: the call of [filter_data] made by the script; with
    nothing picked in the sidebar every brand of the data is selected. *)
Definition dashboard_filter (data : DataFrame)
    (selected_brands_sidebar : list string)
    (start_date end_date : Timestamp) : DataFrame * result DataFrame :=
  let selected_brands :=
    selection_or_default selected_brands_sidebar (unique_brands data) in
  filter_data data selected_brands (Some start_date) (Some end_date).

(** One row of the table of lines 107-113: the totals of a brand and its
    [profit] column (this script computes no margin). *)
Record BrandRow : Type := mkBrandRow {
  brand : string;
  brand_sales : Q;
  brand_cost : Q;
  brand_quantity : Z;
  brand_profit : Q
}.

Definition with_brand_profit (t : Totals) : BrandRow :=
  mkBrandRow (t_key t) (t_sales t) (t_cost t) (t_quantity t)
             (t_sales t - t_cost t)%Q.

(** Lines 105-113: computed only when [filtered_data] has rows. *)
Definition overall_analysis (filtered_data : DataFrame) : option (list BrandRow) :=
  if 0 <? List.length filtered_data
  then Some (map with_brand_profit (groupby_agg brandName filtered_data))
  else None.

End Backup.

(** ** The predicate of the filter, as the specification words it *)

(** The instant of a UTC-normalized timestamp. *)
Definition instant (t : Timestamp) : option Z :=
  match to_datetime t with
  | Aware u _ => Some u
  | _ => None
  end.

Definition in_range (s e t : Timestamp) : bool :=
  match instant s, instant e, instant t with
  | Some a, Some b, Some u => (a <=? u)%Z && (u <=? b)%Z
  | _, _, _ => false
  end.

Definition le_instant (a b : Timestamp) : bool :=
  match instant a, instant b with
  | Some x, Some y => (x <=? y)%Z
  | _, _ => false
  end.

(** The date condition of the specification: both bounds and the
    record's date denote instants, and the record's lies between them. *)
Definition within (s e t : Timestamp) : Prop :=
  exists a b u, instant s = Some a /\ instant e = Some b
                /\ instant t = Some u /\ (a <= u <= b)%Z.

Definition passes (categories stores : list string) (s e : Timestamp)
    (r : Row) : bool :=
  in_range s e (orderDate r)
  && mem (categoryName r) categories
  && mem (storeName r) stores.

Definition keep (p : Row -> bool) (df : DataFrame) : DataFrame :=
  filter (fun lr => p (snd lr)) df.

Inductive subsequence {A : Type} : list A -> list A -> Prop :=
| sub_nil : subsequence [] []
| sub_skip : forall x l1 l2, subsequence l1 l2 -> subsequence l1 (x :: l2)
| sub_take : forall x l1 l2, subsequence l1 l2 -> subsequence (x :: l1) (x :: l2).

Definition rows (df : DataFrame) : list Row := values df.

Fixpoint Qsum (l : list Q) : Q :=
  match l with
  | [] => 0%Q
  | q :: l' => (q + Qsum l')%Q
  end.

Fixpoint Zsum (l : list Z) : Z :=
  match l with
  | [] => 0%Z
  | z :: l' => (z + Zsum l')%Z
  end.

(** The contribution of a row to a price column weighted by quantity. *)
Definition weighted (c : Row -> Q) (r : Row) : Q := (c r * inject_Z (quantity r))%Q.


(** The term of a record in a total: its label with its price times its
    quantity. *)
Definition term (c : Row -> Q) (lr : label * Row) : label * option Q :=
  (fst lr, Some (weighted c (snd lr))).


(** The order of [value_counts]: [p] comes before [q]. *)
Definition fewer_rows (p q : string * nat) : Prop := snd q <= snd p.

(** The number of rows of a category. *)
Definition row_count (data : DataFrame) (c : string) : nat :=
  count_occ string_dec (values (col categoryName data)) c.

(** A record with no negative price and no negative quantity. *)
Definition nonneg_row (r : Row) : Prop :=
  (0 <= sellingPrice r)%Q /\ (0 <= costPrice r)%Q /\ (0 <= quantity r)%Z.

(** The date test alone, and the two membership tests alone. *)
Definition in_dates (s e : Timestamp) (r : Row) : bool :=
  in_range s e (orderDate r).

Definition selected (categories stores : list string) (r : Row) : bool :=
  mem (categoryName r) categories && mem (storeName r) stores.

(** The order of the keys of a group-by. *)
Definition key_le (a b : string) : Prop := String.leb a b = true.

(** What it is for [top] to be the [n] most frequent values of a
    column holding [vals]: [n] values, or all of them if there are fewer,
    without repetition, each at least as frequent as any value left
    out. *)
Definition is_top_n (vals : list string) (n : nat) (top : list string) : Prop :=
  List.length top = Nat.min n (List.length (unique vals))
  /\ NoDup top
  /\ (forall v, In v top -> In v vals)
  /\ (forall v v', In v top -> In v' vals -> ~ In v' top ->
                   count_occ string_dec vals v' <= count_occ string_dec vals v).

(** ** Sample data *)

Definition row_a1 : Row := mkRow (Naive 100) "A" "S1" "B1" "P1" 10 6 2.
Definition row_a2 : Row := mkRow (Aware 200 3600) "A" "S1" "B1" "P2" 10 6 1.
Definition row_b : Row := mkRow (Naive 300) "B" "S2" "B2" "P3" 5 5 4.
(** A give-away: sold at price zero. *)
Definition row_free : Row := mkRow (Naive 150) "C" "S1" "B1" "P4" 0 5 1.

Definition sample_data : DataFrame :=
  [(0, row_a1); (1, row_a2); (2, row_b); (3, row_free)].

(** A dataset with 251 categories: 250 of them with two rows each and
    a last one, ["PK"], with a single row. *)
Definition category_id (i : nat) : string :=
  String (Ascii.ascii_of_nat (65 + i / 16))
         (String (Ascii.ascii_of_nat (65 + i mod 16)) EmptyString).

Definition many_categories : DataFrame :=
  map (fun i => (i, mkRow (Naive 100) (category_id (i mod 251))
                          "S1" "B1" "P1" 1 1 1))
      (seq 0 501).

(** * Properties *)

(** ** Masks and boolean indexing *)

Lemma mapM_ok {A B : Type} (f : A -> result B) (g : A -> B) (l : list A) :
  (forall a, In a l -> f a = Ok (g a)) -> mapM f l = Ok (map g l).
Proof.
  induction l as [|a l IH]; intros Hf; simpl.
  - reflexivity.
  - rewrite (Hf a (or_introl eq_refl)). simpl.
    rewrite IH by (intros b Hb; apply Hf; now right).
    reflexivity.
Qed.

Lemma ts_le_utc (a b : Timestamp) :
  ts_le (to_datetime a) (to_datetime b) = Ok (le_instant a b).
Proof. destruct a, b; reflexivity. Qed.

Lemma to_datetime_idem (t : Timestamp) : to_datetime (to_datetime t) = to_datetime t.
Proof. destruct t; reflexivity. Qed.

Lemma instant_to_datetime (t : Timestamp) : instant (to_datetime t) = instant t.
Proof. unfold instant. now rewrite to_datetime_idem. Qed.

Lemma in_range_split (s e t : Timestamp) :
  le_instant s t && le_instant t e = in_range s e t.
Proof.
  unfold le_instant, in_range.
  destruct (instant s), (instant t), (instant e); simpl;
    rewrite ?andb_false_r; reflexivity.
Qed.

Lemma combine_map_same {A B C : Type} (f : A -> B) (g : A -> C) (l : list A) :
  combine (map f l) (map g l) = map (fun a => (f a, g a)) l.
Proof. induction l; simpl; congruence. Qed.

Lemma mask_and_map {A : Type} (p q : A -> bool) (l : list A) :
  mask_and (map p l) (map q l) = map (fun a => p a && q a) l.
Proof.
  unfold mask_and. rewrite combine_map_same, map_map. reflexivity.
Qed.

Lemma bool_index_map (h : label * Row -> label * Row) (p : label * Row -> bool)
    (df : DataFrame) :
  bool_index (map h df) (map p df) = map h (filter p df).
Proof.
  unfold bool_index. rewrite combine_map_same.
  induction df as [|lr df IH]; simpl.
  - reflexivity.
  - destruct (p lr); simpl; now rewrite IH.
Qed.

Lemma Series_ge_utc (df : DataFrame) (s : Timestamp) :
  Series_ge (col orderDate (assign_orderDate_utc df)) (Some (to_datetime s))
  = Ok (map (fun lr => le_instant s (orderDate (snd lr))) df).
Proof.
  unfold Series_ge.
  induction df as [|lr df IH]; simpl.
  - reflexivity.
  - rewrite ts_le_utc. simpl. rewrite IH. reflexivity.
Qed.

Lemma Series_le_utc (df : DataFrame) (e : Timestamp) :
  Series_le (col orderDate (assign_orderDate_utc df)) (Some (to_datetime e))
  = Ok (map (fun lr => le_instant (orderDate (snd lr)) e) df).
Proof.
  unfold Series_le.
  induction df as [|lr df IH]; simpl.
  - reflexivity.
  - rewrite ts_le_utc. simpl. rewrite IH. reflexivity.
Qed.

Lemma isin_col_utc (c : Row -> string) (allowed : list string) (df : DataFrame) :
  (forall r, c (normalize_row r) = c r) ->
  isin (col c (assign_orderDate_utc df)) allowed
  = map (fun lr => mem (c (snd lr)) allowed) df.
Proof.
  intros Hc. unfold isin, values, col, assign_orderDate_utc.
  rewrite !map_map. apply map_ext. intros lr. simpl. now rewrite Hc.
Qed.

Lemma mem_In (x : string) (l : list string) : mem x l = true <-> In x l.
Proof.
  unfold mem. rewrite existsb_exists. split.
  - intros [y [Hy Heq]]. apply String.eqb_eq in Heq. now subst.
  - intros H. exists x. split; [assumption | apply String.eqb_refl].
Qed.

(** The closed form of [filter_data] on a range with both bounds. *)
Lemma filter_data_keep (D : DataFrame) (categories stores : list string)
    (s e : Timestamp) :
  filter_data D categories stores (Some s) (Some e)
  = (assign_orderDate_utc D,
     Ok (assign_orderDate_utc (keep (passes categories stores s e) D))).
Proof.
  unfold filter_data. simpl option_map. cbv zeta.
  rewrite Series_ge_utc, Series_le_utc. simpl bind.
  rewrite (isin_col_utc categoryName), (isin_col_utc storeName)
    by reflexivity.
  rewrite !mask_and_map.
  unfold assign_orderDate_utc at 2.
  rewrite bool_index_map. unfold keep, assign_orderDate_utc.
  do 3 f_equal. apply filter_ext. intros lr.
  unfold passes. now rewrite in_range_split.
Qed.

Lemma filter_data_by_date_keep (D : DataFrame) (s e : Timestamp) :
  filter_data_by_date D (Some s) (Some e)
  = (assign_orderDate_utc D,
     let R := assign_orderDate_utc
                (keep (fun r => in_range s e (orderDate r)) D) in
     Ok (R, aggregate_by_date categoryName R)).
Proof.
  unfold filter_data_by_date. simpl option_map. cbv zeta.
  rewrite Series_ge_utc, Series_le_utc. simpl bind.
  rewrite !mask_and_map.
  change (assign_orderDate_utc D)
    with (map (fun lr : label * Row => (fst lr, normalize_row (snd lr))) D).
  rewrite !bool_index_map. unfold keep, assign_orderDate_utc.
  assert (Hf : filter (fun a : label * Row =>
                         le_instant s (orderDate (snd a))
                         && le_instant (orderDate (snd a)) e) D
               = filter (fun lr => in_range s e (orderDate (snd lr))) D).
  { apply filter_ext. intros lr. apply in_range_split. }
  rewrite Hf. reflexivity.
Qed.

Lemma backup_filter_data_keep (D : DataFrame) (brands : list string)
    (s e : Timestamp) :
  Backup.filter_data D brands (Some s) (Some e)
  = (assign_orderDate_utc D,
     Ok (assign_orderDate_utc
           (keep (fun r => in_range s e (orderDate r) && mem (brandName r) brands)
                 D))).
Proof.
  unfold Backup.filter_data. simpl option_map. cbv zeta.
  rewrite Series_ge_utc, Series_le_utc. simpl bind.
  rewrite (isin_col_utc brandName) by reflexivity.
  rewrite !mask_and_map.
  unfold assign_orderDate_utc at 2.
  rewrite bool_index_map. unfold keep, assign_orderDate_utc.
  do 3 f_equal. apply filter_ext. intros lr. now rewrite in_range_split.
Qed.

Lemma subsequence_filter {A : Type} (p : A -> bool) (l : list A) :
  subsequence (filter p l) l.
Proof.
  induction l as [|x l IH]; simpl.
  - constructor.
  - destruct (p x); now constructor.
Qed.

Lemma subsequence_map {A B : Type} (f : A -> B) (l1 l2 : list A) :
  subsequence l1 l2 -> subsequence (map f l1) (map f l2).
Proof. induction 1; simpl; now constructor. Qed.

Lemma subsequence_In {A : Type} (l1 l2 : list A) (x : A) :
  subsequence l1 l2 -> In x l1 -> In x l2.
Proof.
  induction 1; simpl; intros Hx; auto.
  destruct Hx; auto.
Qed.

Lemma in_range_within (s e t : Timestamp) :
  in_range s e t = true <-> within s e t.
Proof.
  unfold in_range, within. split.
  - destruct (instant s) as [a|], (instant e) as [b|], (instant t) as [u|];
      try discriminate.
    intros H. apply andb_true_iff in H. destruct H as [H1 H2].
    exists a, b, u. repeat split; try reflexivity; lia.
  - intros (a & b & u & -> & -> & -> & H1 & H2).
    apply andb_true_iff. split; lia.
Qed.

Lemma passes_iff (categories stores : list string) (s e : Timestamp) (r : Row) :
  passes categories stores s e r = true
  <-> within s e (orderDate r)
      /\ In (categoryName r) categories /\ In (storeName r) stores.
Proof.
  unfold passes. rewrite !andb_true_iff, in_range_within, !mem_In. tauto.
Qed.

Lemma normalize_row_idem (r : Row) : normalize_row (normalize_row r) = normalize_row r.
Proof.
  destruct r as [t c s b p sp cp q]. unfold normalize_row, set_orderDate. simpl.
  now rewrite to_datetime_idem.
Qed.

Lemma assign_orderDate_utc_idem (df : DataFrame) :
  assign_orderDate_utc (assign_orderDate_utc df) = assign_orderDate_utc df.
Proof.
  unfold assign_orderDate_utc. rewrite map_map. apply map_ext.
  intros [l r]. simpl. now rewrite normalize_row_idem.
Qed.

Lemma passes_normalize (categories stores : list string) (s e : Timestamp) (r : Row) :
  passes categories stores s e (normalize_row r) = passes categories stores s e r.
Proof.
  unfold passes, in_range. simpl. now rewrite instant_to_datetime.
Qed.

Lemma keep_assign (p : Row -> bool) (df : DataFrame) :
  (forall r, p (normalize_row r) = p r) ->
  keep p (assign_orderDate_utc df) = assign_orderDate_utc (keep p df).
Proof.
  intros Hp. unfold keep, assign_orderDate_utc.
  induction df as [|lr df IH]; simpl.
  - reflexivity.
  - rewrite Hp. destruct (p (snd lr)); simpl; now rewrite IH.
Qed.

Lemma keep_idem (p : Row -> bool) (df : DataFrame) : keep p (keep p df) = keep p df.
Proof.
  unfold keep. induction df as [|lr df IH]; simpl.
  - reflexivity.
  - destruct (p (snd lr)) eqn:E; simpl; rewrite ?E, IH; reflexivity.
Qed.

Lemma keep_none (p : Row -> bool) (df : DataFrame) :
  (forall r, p r = false) -> keep p df = [].
Proof.
  intros Hp. unfold keep. induction df as [|lr df IH]; simpl.
  - reflexivity.
  - now rewrite Hp.
Qed.

(** A missing bound: the comparison raises, after the column was
    rewritten. *)
Lemma filter_data_None_start (D : DataFrame) (categories stores : list string)
    (end_date : option Timestamp) :
  filter_data D categories stores None end_date
  = (assign_orderDate_utc D, Raise TypeError).
Proof. reflexivity. Qed.

Lemma filter_data_None_end (D : DataFrame) (categories stores : list string)
    (start_date : option Timestamp) :
  filter_data D categories stores start_date None
  = (assign_orderDate_utc D, Raise TypeError).
Proof.
  destruct start_date as [s|]; [|reflexivity].
  unfold filter_data. simpl option_map. cbv zeta.
  now rewrite Series_ge_utc.
Qed.

(** ** The filter engine *)

(** C1: on a range with both bounds, [filter_data] returns the rows of a
    subsequence [R] of the dataset (order kept, nothing invented), their
    orderDate UTC-normalized as the call leaves it in the dataset itself;
    a row of the dataset is in [R] exactly when its normalized orderDate
    lies in [start_date, end_date], its categoryName is among the
    selected categories and its storeName among the selected stores. *)
Theorem filter_data_subsequence_iff (D : DataFrame)
    (categories stores : list string) (s e : Timestamp) :
  exists R : DataFrame,
    filter_data D categories stores (Some s) (Some e)
    = (assign_orderDate_utc D, Ok (assign_orderDate_utc R))
    /\ subsequence R D
    /\ subsequence (assign_orderDate_utc R) (assign_orderDate_utc D)
    /\ forall lr, In lr D ->
         (In lr R <->
          within s e (orderDate (snd lr))
          /\ In (categoryName (snd lr)) categories
          /\ In (storeName (snd lr)) stores).
Proof.
  exists (keep (passes categories stores s e) D).
  split; [apply filter_data_keep|].
  split; [apply subsequence_filter|].
  split; [apply subsequence_map, subsequence_filter|].
  intros lr Hin. unfold keep. rewrite filter_In, passes_iff. tauto.
Qed.

(** C7: with both bounds given, an empty category selection, or an empty
    store selection, makes [filter_data] return no row at all. *)
Theorem filter_data_empty_selection (D : DataFrame)
    (categories stores : list string) (s e : Timestamp) :
  snd (filter_data D [] stores (Some s) (Some e)) = Ok []
  /\ snd (filter_data D categories [] (Some s) (Some e)) = Ok [].
Proof.
  rewrite !filter_data_keep. simpl.
  rewrite !keep_none; [split; reflexivity | |].
  - intros r. unfold passes. simpl. now rewrite andb_false_r.
  - intros r. unfold passes. simpl. now rewrite andb_false_r.
Qed.

(** C9: [filter_data] is idempotent: applied with the same criteria to a
    result it returned, it returns that result, and leaves it as it is. *)
Theorem filter_data_idempotent (D D' R : DataFrame)
    (categories stores : list string) (start_date end_date : option Timestamp) :
  filter_data D categories stores start_date end_date = (D', Ok R) ->
  filter_data R categories stores start_date end_date = (R, Ok R).
Proof.
  destruct end_date as [e|]; [|rewrite filter_data_None_end; discriminate].
  destruct start_date as [s|]; [|rewrite filter_data_None_start; discriminate].
  rewrite filter_data_keep. intros H. injection H as _ HR. subst R.
  rewrite filter_data_keep.
  rewrite keep_assign by apply passes_normalize.
  rewrite keep_idem, assign_orderDate_utc_idem. reflexivity.
Qed.

Lemma filter_data_idempotent_witness :
  let R := [(0, normalize_row row_a1); (1, normalize_row row_a2)] in
  filter_data sample_data ["A"] ["S1"] (Some (Naive 0)) (Some (Naive 250))
  = (assign_orderDate_utc sample_data, Ok R)
  /\ filter_data R ["A"] ["S1"] (Some (Naive 0)) (Some (Naive 250)) = (R, Ok R).
Proof.
  split.
  - vm_compute. reflexivity.
  - apply (filter_data_idempotent sample_data (assign_orderDate_utc sample_data)).
    vm_compute. reflexivity.
Defined.

(** C4: with a bound missing, [filter_data] does fail, but with the
    TypeError of the comparison, not an InvalidRange error, and only
    after it has rewritten the orderDate column of the dataset. *)
Theorem filter_data_null_bound_TypeError :
  filter_data sample_data ["A"] ["S1"] None (Some (Naive 250))
  = (assign_orderDate_utc sample_data, Raise TypeError)
  /\ filter_data sample_data ["A"] ["S1"] (Some (Naive 0)) None
     = (assign_orderDate_utc sample_data, Raise TypeError)
  /\ @Raise DataFrame TypeError <> Raise InvalidRange
  /\ assign_orderDate_utc sample_data <> sample_data.
Proof.
  split; [apply filter_data_None_start|].
  split; [apply filter_data_None_end|].
  split; vm_compute; discriminate.
Qed.

(** C5, as stated, fails: a call changes the orderDate column of a
    dataset whose dates are not UTC-normalized yet. *)
Lemma filter_functions_mutate_orderDate :
  ~ (forall (D : DataFrame) (categories stores : list string)
            (start_date end_date : option Timestamp),
        fst (filter_data D categories stores start_date end_date) = D
        /\ fst (filter_data_by_date D start_date end_date) = D).
Proof.
  intros H.
  destruct (H sample_data ["A"] ["S1"] (Some (Naive 0)) (Some (Naive 250)))
    as [H1 _].
  vm_compute in H1. discriminate H1.
Qed.

(** C5, amended: [filter_data] and [filter_data_by_date] write one
    column of their input, orderDate, which they replace by its UTC
    normalization; the index and every other column are unchanged, and
    a dataset so normalized is left as it is by a further call. *)
Theorem filter_functions_frame (D : DataFrame)
    (categories stores : list string) (start_date end_date : option Timestamp) :
  let D1 := fst (filter_data D categories stores start_date end_date) in
  let D2 := fst (filter_data_by_date D start_date end_date) in
  D1 = assign_orderDate_utc D
  /\ D2 = assign_orderDate_utc D
  /\ col orderDate D1
     = map (fun lv => (fst lv, to_datetime (snd lv))) (col orderDate D)
  /\ index D1 = index D
  /\ col categoryName D1 = col categoryName D
  /\ col storeName D1 = col storeName D
  /\ col brandName D1 = col brandName D
  /\ col productName D1 = col productName D
  /\ col sellingPrice D1 = col sellingPrice D
  /\ col costPrice D1 = col costPrice D
  /\ col quantity D1 = col quantity D
  /\ fst (filter_data D1 categories stores start_date end_date) = D1
  /\ fst (filter_data_by_date D1 start_date end_date) = D1.
Proof.
  cbv zeta.
  change (fst (filter_data D categories stores start_date end_date))
    with (assign_orderDate_utc D).
  change (fst (filter_data_by_date D start_date end_date))
    with (assign_orderDate_utc D).
  change (fst (filter_data (assign_orderDate_utc D) categories stores
                           start_date end_date))
    with (assign_orderDate_utc (assign_orderDate_utc D)).
  change (fst (filter_data_by_date (assign_orderDate_utc D) start_date end_date))
    with (assign_orderDate_utc (assign_orderDate_utc D)).
  rewrite assign_orderDate_utc_idem.
  unfold col, index, assign_orderDate_utc. rewrite !map_map.
  repeat split; reflexivity.
Qed.

(** ** Keys of a group-by *)

Lemma In_unique (x : string) (l : list string) : In x (unique l) <-> In x l.
Proof.
  induction l as [|a l IH]; simpl; [tauto|].
  rewrite filter_In, IH.
  destruct (String.eqb_spec a x) as [->|Hne]; simpl; [tauto|].
  intuition congruence.
Qed.

Lemma NoDup_unique (l : list string) : NoDup (unique l).
Proof.
  induction l as [|a l IH]; simpl; constructor.
  - rewrite filter_In, String.eqb_refl. simpl. intros [_ H]. discriminate.
  - now apply NoDup_filter.
Qed.

Lemma insert_key_perm (k : string) (ks : list string) :
  Permutation (insert_key k ks) (k :: ks).
Proof.
  induction ks as [|k' ks IH]; simpl; [reflexivity|].
  destruct (String.leb k k'); [reflexivity|].
  rewrite IH. apply perm_swap.
Qed.

Lemma sort_keys_perm (ks : list string) : Permutation (sort_keys ks) ks.
Proof.
  induction ks as [|k ks IH]; simpl; [reflexivity|].
  rewrite insert_key_perm. now constructor.
Qed.

Lemma NoDup_group_keys (key_of : Row -> string) (df : DataFrame) :
  NoDup (group_keys key_of df).
Proof.
  unfold group_keys.
  eapply Permutation_NoDup; [symmetry; apply sort_keys_perm|].
  apply NoDup_unique.
Qed.

Lemma In_group_keys (key_of : Row -> string) (df : DataFrame) (k : string) :
  In k (group_keys key_of df) <-> exists lr, In lr df /\ key_of (snd lr) = k.
Proof.
  unfold group_keys. split.
  - intros H. apply (Permutation_in _ (sort_keys_perm _)) in H.
    apply -> In_unique in H. unfold values, col in H. rewrite map_map in H.
    apply in_map_iff in H. destruct H as [lr [Hk Hin]]. now exists lr.
  - intros [lr [Hin Hk]].
    apply (Permutation_in _ (Permutation_sym (sort_keys_perm _))).
    apply <- In_unique. unfold values, col. rewrite map_map.
    apply in_map_iff. now exists lr.
Qed.

(** ** Distinct labels *)

Lemma index_assign_orderDate_utc (df : DataFrame) :
  index (assign_orderDate_utc df) = index df.
Proof. unfold index, assign_orderDate_utc. now rewrite map_map. Qed.

Lemma NoDup_index_filter (p : label * Row -> bool) (df : DataFrame) :
  NoDup (index df) -> NoDup (index (filter p df)).
Proof.
  unfold index. induction df as [|lr df IH]; simpl; intros Hnd; [constructor|].
  inversion Hnd as [|? ? Hnotin Hnd']; subst.
  destruct (p lr); simpl; [|now apply IH].
  constructor; [|now apply IH].
  intros Hin. apply Hnotin. apply in_map_iff in Hin.
  destruct Hin as [x [Hx Hin]]. apply filter_In in Hin.
  apply in_map_iff. exists x. tauto.
Qed.

(** The frames that the filter functions return keep distinct labels. *)
Lemma NoDup_index_filtered (p : Row -> bool) (df : DataFrame) :
  NoDup (index df) -> NoDup (index (assign_orderDate_utc (keep p df))).
Proof.
  intros Hnd. rewrite index_assign_orderDate_utc. unfold keep.
  now apply NoDup_index_filter.
Qed.

Lemma index_col {A : Type} (c : Row -> A) (df : DataFrame) :
  index (col c df) = index df.
Proof. unfold index, col. rewrite map_map. reflexivity. Qed.

(** ** The sum of one group *)

Lemma filter_label_absent (df : DataFrame) (l : label) :
  ~ In l (index df) -> filter (fun lr => Nat.eqb (fst lr) l) df = [].
Proof.
  induction df as [|[l0 r0] df IH]; simpl; intros Hl; [reflexivity|].
  destruct (Nat.eqb_spec l0 l) as [->|Hne]; [tauto|].
  apply IH. tauto.
Qed.

Lemma filter_label_unique (df : DataFrame) (l : label) (r : Row) :
  NoDup (index df) -> In (l, r) df ->
  filter (fun lr => Nat.eqb (fst lr) l) df = [(l, r)].
Proof.
  induction df as [|[l0 r0] df IH]; simpl; intros Hnd Hin; [contradiction|].
  inversion Hnd as [|? ? Hnotin Hnd']; subst.
  destruct Hin as [Heq|Hin].
  - injection Heq as -> ->. rewrite Nat.eqb_refl.
    now rewrite filter_label_absent.
  - destruct (Nat.eqb_spec l0 l) as [->|Hne].
    + exfalso. apply Hnotin. unfold index.
      change l with (fst (l, r)). now apply in_map.
    + now apply IH.
Qed.

(** With distinct labels, looking the labels of a part of the frame up
    in the frame gives that part back. *)
Lemma loc_index {A : Type} (df g : DataFrame) (c : Row -> A) :
  NoDup (index df) -> incl g df -> loc df (index g) c = col c g.
Proof.
  intros Hnd. induction g as [|[l r] g IH]; simpl; intros Hincl; [reflexivity|].
  rewrite (filter_label_unique df l r Hnd) by (apply Hincl; now left).
  simpl. f_equal. apply IH. intros x Hx. apply Hincl. now right.
Qed.

Lemma index_equals_refl (a : list label) : index_equals a a = true.
Proof. induction a as [|l a IH]; simpl; [reflexivity|]. now rewrite Nat.eqb_refl. Qed.

Lemma Series_mul_same_frame (c : Row -> Q) (g : DataFrame) :
  Series_mul (col c g) (col quantity g) = map (term c) g.
Proof.
  unfold Series_mul. rewrite !index_col, index_equals_refl.
  unfold col. rewrite combine_map_same, map_map. reflexivity.
Qed.

Lemma product_series_group (df : DataFrame) (p : label * Row -> bool)
    (c : Row -> Q) :
  NoDup (index df) ->
  product_series df (col c (filter p df)) = map (term c) (filter p df).
Proof.
  intros Hnd. unfold product_series. rewrite index_col.
  rewrite (loc_index df (filter p df) quantity Hnd)
    by (intros x Hx; apply filter_In in Hx; tauto).
  apply Series_mul_same_frame.
Qed.

Lemma Series_sum_terms (c : Row -> Q) (g : DataFrame) :
  Series_sum (map (term c) g) = Qsum (map (weighted c) (rows g)).
Proof.
  induction g as [|lr g IH]; simpl; [reflexivity|]. now rewrite IH.
Qed.

Lemma times_quantity_sum_group (df : DataFrame) (p : label * Row -> bool)
    (c : Row -> Q) :
  NoDup (index df) ->
  times_quantity_sum df (col c (filter p df))
  = Qsum (map (weighted c) (rows (filter p df))).
Proof.
  intros Hnd. unfold times_quantity_sum.
  rewrite product_series_group by assumption. apply Series_sum_terms.
Qed.

(** ** int64 sums *)

Lemma wrap_int64_add_r (a b : Z) : wrap_int64 (a + wrap_int64 b) = wrap_int64 (a + b).
Proof.
  unfold wrap_int64.
  replace (a + ((b + 2 ^ 63) mod 2 ^ 64 - 2 ^ 63) + 2 ^ 63)%Z
    with (a + (b + 2 ^ 63) mod 2 ^ 64)%Z by ring.
  rewrite Zplus_mod_idemp_r.
  replace (a + (b + 2 ^ 63))%Z with (a + b + 2 ^ 63)%Z by ring.
  reflexivity.
Qed.

Lemma wrap_int64_add_l (a b : Z) : wrap_int64 (wrap_int64 a + b) = wrap_int64 (a + b).
Proof. rewrite Z.add_comm, wrap_int64_add_r. now rewrite Z.add_comm. Qed.

Lemma wrap_int64_small (z : Z) :
  (- 2 ^ 63 <= z < 2 ^ 63)%Z -> wrap_int64 z = z.
Proof.
  intros Hz. unfold wrap_int64.
  change (2 ^ 63)%Z with 9223372036854775808%Z in *.
  change (2 ^ 64)%Z with 18446744073709551616%Z.
  rewrite Z.mod_small by lia. lia.
Qed.

Lemma Series_sum_Z_col (g : DataFrame) :
  Series_sum_Z (col quantity g) = wrap_int64 (Zsum (map quantity (rows g))).
Proof.
  induction g as [|[l r] g IH]; simpl; [reflexivity|].
  rewrite IH. apply wrap_int64_add_r.
Qed.

Lemma wrap_int64_Zsum_wrapped {X : Type} (f : X -> Z) (l : list X) :
  wrap_int64 (Zsum (map (fun x => wrap_int64 (f x)) l))
  = wrap_int64 (Zsum (map f l)).
Proof.
  induction l as [|x l IH]; simpl; [reflexivity|].
  rewrite wrap_int64_add_l, <- wrap_int64_add_r, IH, wrap_int64_add_r.
  reflexivity.
Qed.

Lemma Zsum_app (l1 l2 : list Z) : Zsum (l1 ++ l2) = (Zsum l1 + Zsum l2)%Z.
Proof. induction l1 as [|z l1 IH]; simpl; [reflexivity|]. rewrite IH. ring. Qed.

Lemma Zsum_perm (l1 l2 : list Z) : Permutation l1 l2 -> Zsum l1 = Zsum l2.
Proof. induction 1; simpl; lia. Qed.

Lemma Zsum_flat_map {X Y : Type} (f : Y -> Z) (g : X -> list Y) (l : list X) :
  Zsum (map f (flat_map g l)) = Zsum (map (fun x => Zsum (map f (g x))) l).
Proof.
  induction l as [|x l IH]; simpl; [reflexivity|].
  now rewrite map_app, Zsum_app, IH.
Qed.

Lemma Zsum_filter_le {X : Type} (f : X -> Z) (p : X -> bool) (l : list X) :
  (forall x, In x l -> 0 <= f x)%Z ->
  (0 <= Zsum (map f (filter p l)) <= Zsum (map f l))%Z.
Proof.
  induction l as [|x l IH]; simpl; intros H; [lia|].
  assert (0 <= f x)%Z by (apply H; now left).
  assert (0 <= Zsum (map f (filter p l)) <= Zsum (map f l))%Z
    by (apply IH; intros y Hy; apply H; now right).
  destruct (p x); simpl; lia.
Qed.

(** ** The groups partition the frame *)

Lemma filter_disjoint_perm {X : Type} (p q : X -> bool) (l : list X) :
  (forall x, p x = true -> q x = false) ->
  Permutation (filter p l ++ filter q l) (filter (fun x => p x || q x) l).
Proof.
  intros Hpq. induction l as [|x l IH]; simpl; [constructor|].
  destruct (p x) eqn:Ep; simpl.
  - rewrite (Hpq x Ep). now constructor.
  - destruct (q x); simpl; [|exact IH].
    rewrite <- Permutation_middle. now constructor.
Qed.

Lemma filter_all {X : Type} (p : X -> bool) (l : list X) :
  (forall x, In x l -> p x = true) -> filter p l = l.
Proof.
  induction l as [|x l IH]; simpl; intros H; [reflexivity|].
  rewrite (H x (or_introl eq_refl)). f_equal. apply IH.
  intros y Hy. apply H. now right.
Qed.

Lemma groups_of_keys_perm {X : Type} (key_of : X -> string) (l : list X)
    (keys : list string) :
  NoDup keys ->
  Permutation
    (flat_map (fun k => filter (fun x => String.eqb (key_of x) k) l) keys)
    (filter (fun x => mem (key_of x) keys) l).
Proof.
  induction keys as [|k keys IH]; intros Hnd; simpl.
  - induction l as [|x l IHl]; simpl; [constructor | exact IHl].
  - inversion Hnd as [|? ? Hnotin Hnd']; subst.
    rewrite (IH Hnd').
    apply (filter_disjoint_perm (fun x => String.eqb (key_of x) k)
                                (fun x => mem (key_of x) keys)).
    intros x Hx. apply String.eqb_eq in Hx.
    destruct (mem (key_of x) keys) eqn:E; [|reflexivity].
    apply mem_In in E. now rewrite Hx in E.
Qed.

Lemma keys_cover (key_of : Row -> string) (df : DataFrame) :
  forall lr, In lr df -> In (key_of (snd lr)) (group_keys key_of df).
Proof. intros lr Hin. apply In_group_keys. now exists lr. Qed.

(** Every record is in the group of its key and in no other: the groups,
    one after the other, are a permutation of the frame. *)
Lemma groups_partition (key_of : Row -> string) (df : DataFrame) :
  Permutation (flat_map snd (groupby key_of df)) df.
Proof.
  unfold groupby. rewrite flat_map_concat_map, map_map. simpl.
  rewrite <- flat_map_concat_map.
  rewrite (groups_of_keys_perm (fun lr => key_of (snd lr)) df _
             (NoDup_group_keys key_of df)).
  rewrite filter_all; [reflexivity|].
  intros lr Hin. apply mem_In. now apply keys_cover.
Qed.

Lemma groupby_agg_keys (key_of : Row -> string) (df : DataFrame) :
  map t_key (groupby_agg key_of df) = group_keys key_of df.
Proof.
  unfold groupby_agg, groupby, group_keys. rewrite !map_map. simpl.
  apply map_id.
Qed.


Lemma groupby_agg_quantity (key_of : Row -> string) (df : DataFrame) :
  map t_quantity (groupby_agg key_of df)
  = map (fun kg => wrap_int64 (Zsum (map quantity (rows (snd kg)))))
        (groupby key_of df).
Proof.
  unfold groupby_agg. rewrite map_map. simpl.
  apply map_ext. intros kg. apply Series_sum_Z_col.
Qed.

Lemma Zsum_groups (key_of : Row -> string) (df : DataFrame) :
  Zsum (map (fun kg => Zsum (map quantity (rows (snd kg)))) (groupby key_of df))
  = Zsum (map quantity (rows df)).
Proof.
  unfold rows, values.
  transitivity (Zsum (map (fun lr => quantity (snd lr))
                          (flat_map snd (groupby key_of df)))).
  - rewrite Zsum_flat_map. f_equal. apply map_ext. intros kg.
    now rewrite map_map.
  - rewrite (Zsum_perm _ _ (Permutation_map (fun lr => quantity (snd lr))
                              (groups_partition key_of df))).
    now rewrite map_map.
Qed.

(** ** The aggregation engine *)

Lemma aggregate_by_date_totals (key_of : Row -> string) (df : DataFrame) :
  map total_sales (aggregate_by_date key_of df) = map t_sales (groupby_agg key_of df)
  /\ map total_cost (aggregate_by_date key_of df) = map t_cost (groupby_agg key_of df)
  /\ map total_quantity (aggregate_by_date key_of df)
     = map t_quantity (groupby_agg key_of df)
  /\ map key (aggregate_by_date key_of df) = map t_key (groupby_agg key_of df).
Proof. unfold aggregate_by_date. rewrite !map_map. repeat split. Qed.

Lemma aggregate_overall_totals (key_of : Row -> string) (df : DataFrame) :
  map total_sales (aggregate_overall key_of df) = map t_sales (groupby_agg key_of df)
  /\ map total_cost (aggregate_overall key_of df) = map t_cost (groupby_agg key_of df)
  /\ map total_quantity (aggregate_overall key_of df)
     = map t_quantity (groupby_agg key_of df)
  /\ map key (aggregate_overall key_of df) = map t_key (groupby_agg key_of df).
Proof. unfold aggregate_overall. rewrite !map_map. repeat split. Qed.


Lemma groupby_agg_quantity_wraps (key_of : Row -> string) (df : DataFrame) :
  wrap_int64 (Zsum (map t_quantity (groupby_agg key_of df)))
  = wrap_int64 (Zsum (map quantity (rows df))).
Proof.
  rewrite groupby_agg_quantity.
  rewrite (wrap_int64_Zsum_wrapped
             (fun kg : string * DataFrame => Zsum (map quantity (rows (snd kg))))).
  now rewrite Zsum_groups.
Qed.

Lemma groupby_agg_quantity_exact (key_of : Row -> string) (df : DataFrame) :
  (forall lr, In lr df -> (0 <= quantity (snd lr))%Z) ->
  (Zsum (map quantity (rows df)) < 2 ^ 63)%Z ->
  Zsum (map t_quantity (groupby_agg key_of df)) = Zsum (map quantity (rows df)).
Proof.
  intros Hpos Hsmall. rewrite groupby_agg_quantity.
  rewrite <- (Zsum_groups key_of df). f_equal.
  apply map_ext_in. intros kg Hkg. apply wrap_int64_small.
  unfold groupby in Hkg. apply in_map_iff in Hkg.
  destruct Hkg as [k [<- _]]. simpl.
  pose proof (Zsum_filter_le (fun lr : label * Row => quantity (snd lr))
                (fun lr => String.eqb (key_of (snd lr)) k) df Hpos) as Hle.
  unfold rows, values in *. rewrite !map_map in *.
  change (2 ^ 63)%Z with 9223372036854775808%Z in *. lia.
Qed.




(** C8: for every grouping column, aggregating a dataset without rows
    gives a table without rows, and [filter_data_by_date] on such a
    dataset returns it with an empty table; nothing is raised. *)
Theorem aggregate_empty (key_of : Row -> string) (s e : Timestamp) :
  aggregate_by_date key_of [] = []
  /\ aggregate_overall key_of [] = []
  /\ filter_data_by_date [] (Some s) (Some e) = ([], Ok ([], [])).
Proof. repeat split. Qed.

Lemma truediv_zero (a b : Q) : b == 0 -> truediv a b = zero_division a.
Proof.
  intros Hb. unfold truediv. apply Qeq_bool_iff in Hb. now rewrite Hb.
Qed.

Lemma truediv_nonzero (a b : Q) : ~ b == 0 -> truediv a b = Finite (a / b).
Proof.
  intros Hb. unfold truediv.
  destruct (Qeq_bool b 0) eqn:E; [|reflexivity].
  apply Qeq_bool_iff in E. contradiction.
Qed.

(** C2, as stated, fails: the group of a give-away (sales 0, cost 5)
    gets the margin -Infinity from [filter_data_by_date], not a NaN
    marker. *)
Lemma zero_sales_margin_is_infinite :
  ~ (forall (D : DataFrame) (start_date end_date : option Timestamp)
            (R : DataFrame) (A : list AggRow) (a : AggRow),
        snd (filter_data_by_date D start_date end_date) = Ok (R, A) ->
        In a A -> total_sales a == 0 -> profit_margin a = NaN).
Proof.
  intros H.
  pose (a := with_profit margin_on_sales (mkTotals "C" (0 * 1 + 0) (5 * 1 + 0) (1 + 0))).
  assert (Ha : profit_margin a = NaN).
  { eapply (H sample_data (Some (Naive 0)) (Some (Naive 1000)) _ _ a).
    - vm_compute. reflexivity.
    - right. right. left. vm_compute. reflexivity.
    - vm_compute. reflexivity. }
  vm_compute in Ha. discriminate Ha.
Qed.

(** C2, amended: a zero denominator raises nothing and costs no group
    its row: either table has one row per distinct key; a row whose
    denominator (total_sales in the by-date path, total_sales + total_cost
    in the overall path) is zero carries the IEEE outcome of the division,
    NaN when its profit is zero too and otherwise the infinity of the
    sign of its profit; every other row carries the finite quotient
    times 100. *)
Theorem zero_denominator_margin (key_of : Row -> string) (df : DataFrame) :
  map key (aggregate_by_date key_of df) = group_keys key_of df
  /\ map key (aggregate_overall key_of df) = group_keys key_of df
  /\ (forall a, In a (aggregate_by_date key_of df) ->
        (total_sales a == 0 -> profit_margin a = zero_division (profit a))
        /\ (~ total_sales a == 0 ->
            profit_margin a = Finite (profit a / total_sales a * 100)))
  /\ (forall a, In a (aggregate_overall key_of df) ->
        (total_sales a + total_cost a == 0 ->
         profit_margin a = zero_division (profit a))
        /\ (~ total_sales a + total_cost a == 0 ->
            profit_margin a
            = Finite (profit a / (total_sales a + total_cost a) * 100))).
Proof.
  split; [|split; [|split]].
  - destruct (aggregate_by_date_totals key_of df) as (_ & _ & _ & ->).
    apply groupby_agg_keys.
  - destruct (aggregate_overall_totals key_of df) as (_ & _ & _ & ->).
    apply groupby_agg_keys.
  - intros a Ha. unfold aggregate_by_date in Ha.
    apply in_map_iff in Ha. destruct Ha as [t [<- _]].
    unfold with_profit, margin_on_sales. simpl. split; intros Hd.
    + rewrite truediv_zero by assumption.
      unfold zero_division. destruct (Qcompare _ 0); reflexivity.
    + now rewrite truediv_nonzero.
  - intros a Ha. unfold aggregate_overall in Ha.
    apply in_map_iff in Ha. destruct Ha as [t [<- _]].
    unfold with_profit, margin_on_sales_plus_cost. simpl. split; intros Hd.
    + rewrite truediv_zero by assumption.
      unfold zero_division. destruct (Qcompare _ 0); reflexivity.
    + now rewrite truediv_nonzero.
Qed.

Lemma zero_denominator_margin_witness :
  let a := with_profit margin_on_sales
             (mkTotals "C" (0 * 1 + 0) (5 * 1 + 0) (1 + 0)) in
  In a (aggregate_by_date categoryName sample_data)
  /\ total_sales a == 0
  /\ profit_margin a = NegInf.
Proof.
  intros a.
  assert (Hin : In a (aggregate_by_date categoryName sample_data))
    by (right; right; left; vm_compute; reflexivity).
  assert (Hz : total_sales a == 0) by (vm_compute; reflexivity).
  split; [exact Hin|]. split; [exact Hz|].
  destruct (zero_denominator_margin categoryName sample_data)
    as (_ & _ & Hby & _).
  destruct (Hby a Hin) as [H0 _].
  rewrite (H0 Hz). vm_compute. reflexivity.
Defined.




(** ** The default selection of categories *)

Lemma insert_count_perm (p : string * nat) (l : list (string * nat)) :
  Permutation (insert_count p l) (p :: l).
Proof.
  induction l as [|q l IH]; simpl; [reflexivity|].
  destruct (snd q <=? snd p); [reflexivity|].
  rewrite IH. apply perm_swap.
Qed.

Lemma insert_count_sorted (p : string * nat) (l : list (string * nat)) :
  StronglySorted fewer_rows l -> StronglySorted fewer_rows (insert_count p l).
Proof.
  induction l as [|q l IH]; simpl; intros Hs.
  - repeat constructor.
  - inversion Hs as [|? ? Hs' Hall]; subst.
    destruct (Nat.leb_spec (snd q) (snd p)) as [Hle|Hlt].
    + constructor; [assumption|]. constructor; [exact Hle|].
      eapply Forall_impl; [|exact Hall].
      intros x Hx. unfold fewer_rows in *. lia.
    + constructor; [now apply IH|].
      apply Forall_forall. intros x Hx.
      apply (Permutation_in _ (insert_count_perm p l)) in Hx.
      destruct Hx as [<-|Hx].
      * unfold fewer_rows. lia.
      * rewrite Forall_forall in Hall. now apply Hall.
Qed.

Lemma value_counts_perm (s : Series string) :
  Permutation (value_counts s) (counted s).
Proof.
  unfold value_counts.
  induction (counted s) as [|p l IH]; simpl; [reflexivity|].
  rewrite insert_count_perm. now constructor.
Qed.

Lemma value_counts_sorted (s : Series string) :
  StronglySorted fewer_rows (value_counts s).
Proof.
  unfold value_counts.
  induction (counted s) as [|p l IH]; simpl.
  - constructor.
  - now apply insert_count_sorted.
Qed.

Lemma value_counts_keys (s : Series string) :
  Permutation (map fst (value_counts s)) (unique (values s)).
Proof.
  rewrite (Permutation_map fst (value_counts_perm s)).
  unfold counted. rewrite map_map. simpl. now rewrite map_id.
Qed.

Lemma value_counts_count (s : Series string) (p : string * nat) :
  In p (value_counts s) -> snd p = count_occ string_dec (values s) (fst p).
Proof.
  intros Hp. apply (Permutation_in _ (value_counts_perm s)) in Hp.
  unfold counted in Hp. apply in_map_iff in Hp.
  destruct Hp as [v [<- _]]. reflexivity.
Qed.

Lemma StronglySorted_app_inv {A : Type} (R : A -> A -> Prop) (l1 l2 : list A) :
  StronglySorted R (l1 ++ l2) ->
  forall a b, In a l1 -> In b l2 -> R a b.
Proof.
  induction l1 as [|x l1 IH]; simpl; intros Hs a b Ha Hb; [contradiction|].
  inversion Hs as [|? ? Hs' Hall]; subst.
  destruct Ha as [<-|Ha].
  - rewrite Forall_forall in Hall. apply Hall, in_or_app. now right.
  - now apply IH.
Qed.

Lemma top_categories_length (data : DataFrame) (n : nat) :
  List.length (get_top_categories data n)
  = Nat.min n (n_categories_available data).
Proof.
  unfold get_top_categories, head, n_categories_available.
  rewrite length_map, length_firstn.
  now rewrite <- (Permutation_length (value_counts_keys _)), length_map.
Qed.

Lemma top_categories_NoDup (data : DataFrame) (n : nat) :
  NoDup (get_top_categories data n).
Proof.
  unfold get_top_categories, head.
  assert (Hnd : NoDup (map fst (value_counts (col categoryName data)))).
  { eapply Permutation_NoDup;
      [symmetry; apply value_counts_keys | apply NoDup_unique]. }
  rewrite <- (firstn_skipn n (value_counts (col categoryName data))) in Hnd.
  rewrite map_app in Hnd. now apply NoDup_app_remove_r in Hnd.
Qed.

Lemma top_categories_most_frequent (data : DataFrame) (n : nat) (c c' : string) :
  In c (get_top_categories data n) ->
  In c' (values (col categoryName data)) ->
  ~ In c' (get_top_categories data n) ->
  row_count data c' <= row_count data c.
Proof.
  unfold get_top_categories, head, row_count.
  set (s := col categoryName data). set (vc := value_counts s).
  intros Hc Hc' Hout.
  apply in_map_iff in Hc. destruct Hc as [p [<- Hp]].
  assert (Hq : In (c', count_occ string_dec (values s) c') vc).
  { apply (Permutation_in _ (Permutation_sym (value_counts_perm s))).
    unfold counted. apply in_map_iff. exists c'. split; [reflexivity|].
    now apply <- In_unique. }
  rewrite <- (firstn_skipn n vc) in Hq. apply in_app_or in Hq.
  destruct Hq as [Hq|Hq].
  - exfalso. apply Hout. apply in_map_iff.
    now exists (c', count_occ string_dec (values s) c').
  - pose proof (value_counts_sorted s) as Hs. fold vc in Hs.
    rewrite <- (firstn_skipn n vc) in Hs.
    pose proof (StronglySorted_app_inv _ _ _ Hs _ _ Hp Hq) as Hle.
    unfold fewer_rows in Hle. simpl in Hle.
    rewrite (value_counts_count s p) in Hle; [exact Hle|].
    change (In p vc). rewrite <- (firstn_skipn n vc). apply in_or_app. now left.
Qed.

Lemma some_category_left_out (data : DataFrame) (top : list string) :
  List.length top < n_categories_available data ->
  exists lr, In lr data /\ ~ In (categoryName (snd lr)) top.
Proof.
  unfold n_categories_available. intros Hlt.
  destruct (Forall_Exists_dec (fun c => In c top)
              (fun c => in_dec string_dec c top)
              (unique (values (col categoryName data)))) as [Hall|Hex].
  - exfalso. rewrite Forall_forall in Hall.
    pose proof (NoDup_incl_length (NoDup_unique _) Hall). lia.
  - apply Exists_exists in Hex. destruct Hex as [c [Hc Hout]].
    apply -> In_unique in Hc. unfold values, col in Hc. rewrite map_map in Hc.
    apply in_map_iff in Hc. destruct Hc as [lr [<- Hin]]. now exists lr.
Qed.

Lemma in_dates_normalize (s e : Timestamp) (r : Row) :
  in_dates s e (normalize_row r) = in_dates s e r.
Proof. unfold in_dates, in_range. simpl. now rewrite instant_to_datetime. Qed.

(** The analysis block in closed form. *)
Lemma dashboard_eq (data : DataFrame) (n_categories : nat)
    (selected_categories_sidebar selected_stores_sidebar : list string)
    (s e : Timestamp) :
  let top_categories := get_top_categories data n_categories in
  let selected_categories :=
    selection_or_default selected_categories_sidebar top_categories in
  let selected_stores :=
    selection_or_default selected_stores_sidebar
      (get_top_stores data (n_stores_available data)) in
  let filtered_data :=
    assign_orderDate_utc
      (keep (passes selected_categories selected_stores s e) data) in
  let date_filtered_data := assign_orderDate_utc (keep (in_dates s e) data) in
  dashboard data n_categories selected_categories_sidebar
            selected_stores_sidebar s e
  = (assign_orderDate_utc data,
     match overall_analysis filtered_data with
     | Some overall =>
         Analysed overall
           (analysis_calls (assign_orderDate_utc data) filtered_data
                           date_filtered_data selected_categories
                           selected_stores top_categories)
     | None => Warning "No data found for the selected criteria."
     end).
Proof.
  cbv zeta. unfold dashboard.
  rewrite filter_data_keep, filter_data_by_date_keep. cbv zeta.
  rewrite assign_orderDate_utc_idem.
  change (keep (fun r => in_range s e (orderDate r)) (assign_orderDate_utc data))
    with (keep (in_dates s e) (assign_orderDate_utc data)).
  rewrite keep_assign by apply in_dates_normalize.
  rewrite assign_orderDate_utc_idem.
  destruct (overall_analysis _); reflexivity.
Qed.

Lemma overall_analysis_of_rows (lr : label * Row) (filtered_data : DataFrame) :
  In lr filtered_data ->
  overall_analysis filtered_data
  = Some (aggregate_overall categoryName filtered_data).
Proof.
  intros Hin. destruct filtered_data as [|x df]; [contradiction|]. reflexivity.
Qed.

Lemma In_assign (df : DataFrame) (lr : label * Row) :
  In lr df -> In (fst lr, normalize_row (snd lr)) (assign_orderDate_utc df).
Proof.
  intros Hin. unfold assign_orderDate_utc. apply in_map_iff. now exists lr.
Qed.

Lemma store_performance_call (data filtered_data date_filtered_data : DataFrame)
    (selected_categories selected_stores top_categories : list string) :
  In (mkCall store_performance_analysis [data; date_filtered_data]
             [selected_categories; selected_stores])
     (analysis_calls data filtered_data date_filtered_data
                     selected_categories selected_stores top_categories).
Proof. right. right. right. left. reflexivity. Qed.

Lemma other_calls_frames (data filtered_data date_filtered_data : DataFrame)
    (selected_categories selected_stores top_categories : list string)
    (c : call) :
  In c (analysis_calls data filtered_data date_filtered_data
                       selected_categories selected_stores top_categories) ->
  callee c <> store_performance_analysis ->
  frames c = [filtered_data].
Proof.
  intros Hc Hneq. unfold analysis_calls in Hc.
  repeat (destruct Hc as [<-|Hc]; [first [reflexivity | now elim Hneq]|]).
  contradiction.
Qed.

Lemma In_many_categories (i : nat) :
  i < 501 ->
  In (i, mkRow (Naive 100) (category_id (i mod 251)) "S1" "B1" "P1" 1 1 1)
     many_categories.
Proof.
  intros Hi. unfold many_categories.
  apply (proj2 (in_map_iff _ _ _)). exists i.
  split; [reflexivity | apply (proj2 (in_seq _ _ _)); lia].
Qed.

(** C10, as stated, fails in its last part: with 251 categories and the
    defaults, the only record of the least frequent category, ["PK"], is
    not in the top 250, yet it is in the dataset that the script hands
    to [store_performance_analysis]. *)
Lemma store_performance_analysis_gets_every_record :
  ~ (forall (data : DataFrame) (selected_stores_sidebar : list string)
            (start_date end_date : Timestamp)
            (overall : list AggRow) (calls : list call),
        250 < n_categories_available data ->
        snd (dashboard data (default_n_categories data) []
                       selected_stores_sidebar start_date end_date)
        = Analysed overall calls ->
        forall c f lr,
          In c calls -> In f (frames c) -> In lr f ->
          In (categoryName (snd lr))
             (get_top_categories data (default_n_categories data))).
Proof.
  intros H.
  assert (Hmany : 250 < n_categories_available many_categories)
    by (apply Nat.ltb_lt; vm_compute; reflexivity).
  pose (n := default_n_categories many_categories).
  pose (top := get_top_categories many_categories n).
  pose (stores := get_top_stores many_categories
                   (n_stores_available many_categories)).
  assert (Haa : In "AA" top)
    by (apply (proj1 (mem_In _ _)); vm_compute; reflexivity).
  assert (Hs1 : In "S1" stores)
    by (apply (proj1 (mem_In _ _)); vm_compute; reflexivity).
  assert (Hpk : ~ In "PK" top).
  { intros Hin. apply (proj2 (mem_In _ _)) in Hin.
    vm_compute in Hin. discriminate Hin. }
  pose (F := assign_orderDate_utc
                        (keep (passes top stores (Naive 0) (Naive 1000))
                              many_categories)).
  pose (DF := assign_orderDate_utc
                (keep (in_dates (Naive 0) (Naive 1000)) many_categories)).
  assert (Hkept : In (0, normalize_row
                           (mkRow (Naive 100) "AA" "S1" "B1" "P1" 1 1 1)) F).
  { apply (In_assign _ (0, mkRow (Naive 100) "AA" "S1" "B1" "P1" 1 1 1)).
    unfold keep. apply (proj2 (filter_In _ _ _)).
    split; [apply (In_many_categories 0); lia|].
    apply (proj2 (passes_iff _ _ _ _ _)).
    split; [|split; [exact Haa | exact Hs1]].
    exists 0%Z, 1000%Z, 100%Z. repeat split; lia. }
  assert (Hd : snd (dashboard many_categories
                      (default_n_categories many_categories) [] []
                      (Naive 0) (Naive 1000))
               = Analysed (aggregate_overall categoryName F)
                   (analysis_calls (assign_orderDate_utc many_categories)
                                   F DF top stores top)).
  { rewrite (dashboard_eq many_categories
               (default_n_categories many_categories) [] []
               (Naive 0) (Naive 1000)).
    cbv zeta. simpl selection_or_default.
    unfold F, DF, top, stores, n in *.
    rewrite (overall_analysis_of_rows _ _ Hkept).
    reflexivity. }
  apply Hpk.
  apply (H many_categories [] (Naive 0) (Naive 1000) 
           (aggregate_overall categoryName F)
           (analysis_calls (assign_orderDate_utc many_categories)
                                   F DF top stores top) Hmany Hd
           (mkCall store_performance_analysis
                   [assign_orderDate_utc many_categories; DF] [top; stores])
           (assign_orderDate_utc many_categories)
           (250, normalize_row (mkRow (Naive 100) "PK" "S1" "B1" "P1" 1 1 1))).
  - apply store_performance_call.
  - (left; reflexivity).
  - (apply (In_assign _ (250, mkRow (Naive 100) "PK" "S1" "B1" "P1" 1 1 1));
    apply (In_many_categories 250); lia).
Qed.

(** C10, amended: with more than 250 distinct categories and no category
    picked in the sidebar, n_categories starts at 250 and the script
    calls [filter_data] with the 250 most frequent categories, not with
    all of them: that list holds 250 distinct categories none of which
    has fewer rows than a category left out, some record of the dataset
    is outside it, and the result keeps exactly the records in the date
    range whose category is in the list and whose store is selected.  No
    record of another category is in that result, in the overall
    analysis built from it, or in the frame handed to the category
    performance, weekly, daily, hourly, profit margin and top products
    analyses; [store_performance_analysis] is handed the whole dataset
    and the date-filtered frame instead, next to the selection lists. *)
Theorem default_categories_top_250 (data : DataFrame)
    (selected_stores_sidebar : list string) (start_date end_date : Timestamp) :
  250 < n_categories_available data ->
  let n_categories := default_n_categories data in
  let top_categories := get_top_categories data n_categories in
  let selected_stores :=
    selection_or_default selected_stores_sidebar
      (get_top_stores data (n_stores_available data)) in
  n_categories = 250
  /\ List.length top_categories = 250
  /\ NoDup top_categories
  /\ (forall c c', In c top_categories ->
                   In c' (values (col categoryName data)) ->
                   ~ In c' top_categories ->
                   row_count data c' <= row_count data c)
  /\ (exists lr, In lr data /\ ~ In (categoryName (snd lr)) top_categories)
  /\ dashboard_filter data n_categories [] selected_stores_sidebar
                      start_date end_date
     = filter_data data top_categories selected_stores
                   (Some start_date) (Some end_date)
  /\ exists R : DataFrame,
       dashboard_filter data n_categories [] selected_stores_sidebar
                        start_date end_date
       = (assign_orderDate_utc data, Ok (assign_orderDate_utc R))
       /\ subsequence R data
       /\ (forall lr, In lr data ->
              (In lr R <->
               within start_date end_date (orderDate (snd lr))
               /\ In (categoryName (snd lr)) top_categories
               /\ In (storeName (snd lr)) selected_stores))
       /\ (forall lr, In lr data ->
                      ~ In (categoryName (snd lr)) top_categories ->
                      ~ In lr R)
       /\ (forall A a, overall_analysis (assign_orderDate_utc R) = Some A ->
                       In a A -> In (key a) top_categories)
       /\ (forall overall calls,
              snd (dashboard data n_categories [] selected_stores_sidebar
                             start_date end_date) = Analysed overall calls ->
              overall_analysis (assign_orderDate_utc R) = Some overall
              /\ (forall c, In c calls ->
                            callee c <> store_performance_analysis ->
                            frames c = [assign_orderDate_utc R])
              /\ In (mkCall store_performance_analysis
                            [assign_orderDate_utc data;
                             assign_orderDate_utc
                               (keep (in_dates start_date end_date) data)]
                            [top_categories; selected_stores])
                    calls).
Proof.
  intros Hmany n_categories top_categories selected_stores.
  assert (Hn : n_categories = 250)
    by (unfold n_categories, default_n_categories; lia).
  assert (Hlen : List.length top_categories = 250).
  { unfold top_categories. rewrite top_categories_length, Hn. lia. }
  split; [exact Hn|]. split; [exact Hlen|].
  split; [apply top_categories_NoDup|].
  split; [intros c c'; apply top_categories_most_frequent|].
  split; [apply some_category_left_out; lia|].
  split; [reflexivity|].
  exists (keep (passes top_categories selected_stores start_date end_date) data).
  split; [apply filter_data_keep|].
  split; [apply subsequence_filter|].
  split; [intros lr Hin; unfold keep; rewrite filter_In, passes_iff; tauto|].
  split.
  { intros lr _ Hout Hin. unfold keep in Hin. apply filter_In in Hin.
    destruct Hin as [_ Hp]. apply passes_iff in Hp. tauto. }
  split.
  - intros A a HA Ha. unfold overall_analysis in HA.
    destruct (0 <? List.length _); [|discriminate HA].
    injection HA as <-.
    assert (Hk : In (key a) (map key (aggregate_overall categoryName
               (assign_orderDate_utc
                  (keep (passes top_categories selected_stores
                                start_date end_date) data)))))
      by now apply in_map.
    destruct (aggregate_overall_totals categoryName (assign_orderDate_utc
                (keep (passes top_categories selected_stores
                              start_date end_date) data)))
      as (_ & _ & _ & Hkeys).
    rewrite Hkeys, groupby_agg_keys in Hk.
    apply In_group_keys in Hk. destruct Hk as [lr [Hin <-]].
    unfold assign_orderDate_utc in Hin. apply in_map_iff in Hin.
    destruct Hin as [lr0 [<- Hin0]]. simpl.
    unfold keep in Hin0. apply filter_In in Hin0.
    destruct Hin0 as [_ Hp]. apply passes_iff in Hp. tauto.
  - intros overall calls Hd.
    pose proof (dashboard_eq data n_categories [] selected_stores_sidebar
                  start_date end_date) as Heq.
    cbv zeta in Heq. simpl selection_or_default in Heq.
    fold top_categories selected_stores in Heq.
    rewrite Heq in Hd. simpl snd in Hd.
    destruct (overall_analysis _) as [ov|]; [|discriminate Hd].
    injection Hd as <- <-.
    split; [reflexivity|]. split.
    + intros c. apply other_calls_frames.
    + apply store_performance_call.
Qed.

Lemma default_categories_top_250_witness :
  250 < n_categories_available many_categories
  /\ default_n_categories many_categories = 250
  /\ ~ In "PK" (get_top_categories many_categories 250)
  /\ exists R,
       snd (dashboard_filter many_categories 250 [] []
                             (Naive 0) (Naive 1000))
       = Ok (assign_orderDate_utc R)
       /\ In (0, mkRow (Naive 100) "AA" "S1" "B1" "P1" 1 1 1) R
       /\ ~ In (250, mkRow (Naive 100) "PK" "S1" "B1" "P1" 1 1 1) R.
Proof.
  assert (Hmany : 250 < n_categories_available many_categories)
    by (apply Nat.ltb_lt; vm_compute; reflexivity).
  destruct (default_categories_top_250 many_categories [] (Naive 0) (Naive 1000)
              Hmany) as (Hn & _ & _ & _ & _ & _ & R & HR & _ & Hiff & Hout & _).
  rewrite Hn in HR, Hiff, Hout.
  assert (Hpk : ~ In "PK" (get_top_categories many_categories 250)).
  { intros Hin. apply (proj2 (mem_In _ _)) in Hin.
    vm_compute in Hin. discriminate Hin. }
  split; [exact Hmany|]. split; [exact Hn|]. split; [exact Hpk|].
  exists R. rewrite HR. split; [reflexivity|]. split.
  - apply (proj2 (Hiff _ (In_many_categories 0 ltac:(lia)))).
    split; [|split].
    + exists 0%Z, 1000%Z, 100%Z. repeat split; lia.
    + apply (proj1 (mem_In _ _)). vm_compute. reflexivity.
    + apply (proj1 (mem_In _ _)). vm_compute. reflexivity.
  - apply (Hout _ (In_many_categories 250 ltac:(lia))). exact Hpk.
Defined.

(** * Further properties of the two scripts *)

(** ** The filter functions *)

Lemma filter_data_by_date_None_start (D : DataFrame) (end_date : option Timestamp) :
  filter_data_by_date D None end_date = (assign_orderDate_utc D, Raise TypeError).
Proof. reflexivity. Qed.

Lemma filter_data_by_date_None_end (D : DataFrame) (start_date : option Timestamp) :
  filter_data_by_date D start_date None = (assign_orderDate_utc D, Raise TypeError).
Proof.
  destruct start_date as [s|]; [|reflexivity].
  unfold filter_data_by_date. simpl option_map. cbv zeta.
  now rewrite Series_ge_utc.
Qed.

Lemma backup_filter_data_None_start (D : DataFrame) (brands : list string)
    (end_date : option Timestamp) :
  Backup.filter_data D brands None end_date
  = (assign_orderDate_utc D, Raise TypeError).
Proof. reflexivity. Qed.

Lemma backup_filter_data_None_end (D : DataFrame) (brands : list string)
    (start_date : option Timestamp) :
  Backup.filter_data D brands start_date None
  = (assign_orderDate_utc D, Raise TypeError).
Proof.
  destruct start_date as [s|]; [|reflexivity].
  unfold Backup.filter_data. simpl option_map. cbv zeta.
  now rewrite Series_ge_utc.
Qed.

(** X1: whatever the dataset and the selections, a call of [filter_data],
    of [filter_data_by_date] or of the [filter_data] of main_bakcup.py with
    [None] for either bound raises TypeError, and leaves the orderDate
    column of the dataset UTC-normalized. *)
Theorem missing_bound_raises_TypeError (D : DataFrame)
    (categories stores brands : list string)
    (start_date end_date : option Timestamp) :
  start_date = None \/ end_date = None ->
  filter_data D categories stores start_date end_date
  = (assign_orderDate_utc D, Raise TypeError)
  /\ filter_data_by_date D start_date end_date
     = (assign_orderDate_utc D, Raise TypeError)
  /\ Backup.filter_data D brands start_date end_date
     = (assign_orderDate_utc D, Raise TypeError).
Proof.
  intros [-> | ->].
  - split; [apply filter_data_None_start|].
    split; [apply filter_data_by_date_None_start|].
    apply backup_filter_data_None_start.
  - split; [apply filter_data_None_end|].
    split; [apply filter_data_by_date_None_end|].
    apply backup_filter_data_None_end.
Qed.

Lemma missing_bound_raises_TypeError_witness :
  snd (filter_data sample_data ["A"] ["S1"] (Some (Naive 0)) None)
  = Raise TypeError
  /\ snd (filter_data_by_date sample_data (Some (Naive 0)) None)
     = Raise TypeError.
Proof.
  destruct (missing_bound_raises_TypeError sample_data ["A"] ["S1"] ["B1"]
              (Some (Naive 0)) None (or_intror eq_refl)) as (H1 & H2 & _).
  rewrite H1, H2. split; reflexivity.
Defined.

(** X2: on a range with both bounds, [filter_data_by_date] returns the
    rows of a subsequence of the dataset, namely exactly those whose
    UTC-normalized orderDate lies in the range whatever their category
    or store, together with the aggregation by categoryName of the rows
    it returns. *)
Theorem filter_data_by_date_subsequence_iff (D : DataFrame) (s e : Timestamp) :
  exists R : DataFrame,
    filter_data_by_date D (Some s) (Some e)
    = (assign_orderDate_utc D,
       Ok (assign_orderDate_utc R,
           aggregate_by_date categoryName (assign_orderDate_utc R)))
    /\ subsequence R D
    /\ forall lr, In lr D -> (In lr R <-> within s e (orderDate (snd lr))).
Proof.
  exists (keep (in_dates s e) D).
  split; [apply filter_data_by_date_keep|].
  split; [apply subsequence_filter|].
  intros lr Hin. unfold keep, in_dates.
  rewrite filter_In, in_range_within. tauto.
Qed.

Lemma keep_keep (p q : Row -> bool) (df : DataFrame) :
  keep p (keep q df) = keep (fun r => q r && p r) df.
Proof.
  unfold keep. induction df as [|lr df IH]; simpl; [reflexivity|].
  destruct (q (snd lr)); simpl; [|exact IH].
  destruct (p (snd lr)); simpl; now rewrite IH.
Qed.

Lemma keep_ext (p q : Row -> bool) (df : DataFrame) :
  (forall r, p r = q r) -> keep p df = keep q df.
Proof. intros H. unfold keep. apply filter_ext. intros lr. apply H. Qed.

Lemma selected_normalize (categories stores : list string) (r : Row) :
  selected categories stores (normalize_row r) = selected categories stores r.
Proof. reflexivity. Qed.

Lemma passes_split (categories stores : list string) (s e : Timestamp) (r : Row) :
  passes categories stores s e r
  = in_dates s e r && selected categories stores r.
Proof. unfold passes, in_dates, selected. now rewrite andb_assoc. Qed.

(** X3: the result of [filter_data] is the selection, by category and
    store, of the date-filtered frame that [filter_data_by_date] returns
    for the same bounds; in particular it is a subsequence of that
    frame. *)
Theorem filter_data_selects_from_date_filtered (D : DataFrame)
    (categories stores : list string) (s e : Timestamp) :
  exists (date_filtered_data : DataFrame) (category_aggregated : list AggRow),
    snd (filter_data_by_date D (Some s) (Some e))
    = Ok (date_filtered_data, category_aggregated)
    /\ snd (filter_data D categories stores (Some s) (Some e))
       = Ok (keep (selected categories stores) date_filtered_data)
    /\ subsequence (keep (selected categories stores) date_filtered_data)
                   date_filtered_data.
Proof.
  rewrite filter_data_by_date_keep, filter_data_keep. cbv zeta. simpl snd.
  eexists. eexists. split; [reflexivity|].
  split; [|apply subsequence_filter].
  rewrite keep_assign by apply selected_normalize.
  rewrite keep_keep. do 2 f_equal. apply keep_ext, passes_split.
Qed.

(** X4: on a range with both bounds, the [filter_data] of main_bakcup.py
    returns the rows of a subsequence of the dataset: exactly those
    whose UTC-normalized orderDate lies in the range and whose brandName
    is among the selected brands. *)
Theorem backup_filter_subsequence_iff (D : DataFrame)
    (brands : list string) (s e : Timestamp) :
  exists R : DataFrame,
    Backup.filter_data D brands (Some s) (Some e)
    = (assign_orderDate_utc D, Ok (assign_orderDate_utc R))
    /\ subsequence R D
    /\ forall lr, In lr D ->
         (In lr R <->
          within s e (orderDate (snd lr)) /\ In (brandName (snd lr)) brands).
Proof.
  eexists. split; [apply backup_filter_data_keep|].
  split; [apply subsequence_filter|].
  intros lr Hin. unfold keep.
  rewrite filter_In, andb_true_iff, in_range_within, mem_In. tauto.
Qed.

(** ** The defaults of the sidebars *)

Lemma value_counts_length (s : Series string) :
  List.length (value_counts s) = List.length (unique (values s)).
Proof.
  rewrite <- (Permutation_length (value_counts_keys s)). now rewrite length_map.
Qed.

Lemma In_value_counts_keys (s : Series string) (v : string) :
  In v (map fst (value_counts s)) <-> In v (values s).
Proof.
  split; intros H.
  - apply -> In_unique. exact (Permutation_in _ (value_counts_keys s) H).
  - apply <- In_unique in H.
    exact (Permutation_in _ (Permutation_sym (value_counts_keys s)) H).
Qed.

Lemma head_value_counts_all (s : Series string) (n : nat) :
  List.length (unique (values s)) <= n ->
  head n (value_counts s) = value_counts s.
Proof.
  intros Hn. unfold head. apply firstn_all2. now rewrite value_counts_length.
Qed.

Lemma In_col_values {A : Type} (c : Row -> A) (df : DataFrame) (lr : label * Row) :
  In lr df -> In (c (snd lr)) (values (col c df)).
Proof.
  intros Hin. unfold values, col. rewrite map_map. simpl.
  apply in_map_iff. now exists lr.
Qed.

Lemma top_stores_cover (data : DataFrame) (lr : label * Row) :
  In lr data ->
  In (storeName (snd lr)) (get_top_stores data (n_stores_available data)).
Proof.
  intros Hin. unfold get_top_stores, n_stores_available.
  rewrite head_value_counts_all by apply Nat.le_refl.
  apply In_value_counts_keys. now apply In_col_values.
Qed.

Lemma top_categories_cover (data : DataFrame) (n : nat) (lr : label * Row) :
  n_categories_available data <= n ->
  In lr data -> In (categoryName (snd lr)) (get_top_categories data n).
Proof.
  intros Hn Hin. unfold get_top_categories.
  rewrite head_value_counts_all by exact Hn.
  apply In_value_counts_keys. now apply In_col_values.
Qed.

(** X5: in main_bakcup.py, with no brand picked in the sidebar the
    selection defaults to every brand of the data, so the script's call
    of [filter_data] keeps exactly the rows whose orderDate lies in the
    range: no brand is left out, however many brands there are. *)
Theorem backup_default_selects_every_brand (data : DataFrame) (s e : Timestamp) :
  exists R : DataFrame,
    Backup.dashboard_filter data [] s e
    = (assign_orderDate_utc data, Ok (assign_orderDate_utc R))
    /\ subsequence R data
    /\ forall lr, In lr data -> (In lr R <-> within s e (orderDate (snd lr))).
Proof.
  unfold Backup.dashboard_filter. simpl selection_or_default.
  eexists. split; [apply backup_filter_data_keep|].
  split; [apply subsequence_filter|].
  intros lr Hin. unfold keep.
  rewrite filter_In, andb_true_iff, in_range_within, mem_In.
  assert (Hb : In (brandName (snd lr)) (Backup.unique_brands data))
    by (apply In_unique; now apply In_col_values).
  tauto.
Qed.

(** X6: in main.py the default store selection is every store of the
    data: with no store picked in the sidebar, whatever n_categories and
    the categories picked, the script's call of [filter_data] keeps
    exactly the rows in the date range whose category is selected. *)
Theorem default_stores_exclude_nothing (data : DataFrame) (n_categories : nat)
    (selected_categories_sidebar : list string) (s e : Timestamp) :
  exists R : DataFrame,
    dashboard_filter data n_categories selected_categories_sidebar [] s e
    = (assign_orderDate_utc data, Ok (assign_orderDate_utc R))
    /\ subsequence R data
    /\ forall lr, In lr data ->
         (In lr R <->
          within s e (orderDate (snd lr))
          /\ In (categoryName (snd lr))
                (selection_or_default selected_categories_sidebar
                   (get_top_categories data n_categories))).
Proof.
  unfold dashboard_filter. simpl (selection_or_default [] _).
  eexists. split; [apply filter_data_keep|].
  split; [apply subsequence_filter|].
  intros lr Hin. unfold keep. rewrite filter_In, passes_iff.
  pose proof (top_stores_cover data lr Hin). tauto.
Qed.

(** X7: in main.py, for data with at most 250 distinct categories, the
    initial n_categories and nothing picked in the sidebar, the script's
    call of [filter_data] keeps exactly the rows whose orderDate lies in
    the range: the defaults then leave out no category and no store. *)
Theorem defaults_keep_date_range_up_to_250 (data : DataFrame) (s e : Timestamp) :
  n_categories_available data <= 250 ->
  exists R : DataFrame,
    dashboard_filter data (default_n_categories data) [] [] s e
    = (assign_orderDate_utc data, Ok (assign_orderDate_utc R))
    /\ subsequence R data
    /\ forall lr, In lr data -> (In lr R <-> within s e (orderDate (snd lr))).
Proof.
  intros Hfew. unfold dashboard_filter. simpl selection_or_default.
  eexists. split; [apply filter_data_keep|].
  split; [apply subsequence_filter|].
  intros lr Hin. unfold keep. rewrite filter_In, passes_iff.
  pose proof (top_stores_cover data lr Hin).
  assert (Hc : In (categoryName (snd lr))
                  (get_top_categories data (default_n_categories data))).
  { apply top_categories_cover; [|exact Hin].
    unfold default_n_categories. lia. }
  tauto.
Qed.

Lemma defaults_keep_date_range_up_to_250_witness :
  n_categories_available sample_data <= 250
  /\ exists R,
       dashboard_filter sample_data (default_n_categories sample_data) [] []
                        (Naive 0) (Naive 250)
       = (assign_orderDate_utc sample_data, Ok (assign_orderDate_utc R))
       /\ (In (3, row_free) R <-> within (Naive 0) (Naive 250) (Naive 150)).
Proof.
  assert (Hfew : n_categories_available sample_data <= 250)
    by (apply Nat.leb_le; vm_compute; reflexivity).
  split; [exact Hfew|].
  destruct (defaults_keep_date_range_up_to_250 sample_data (Naive 0) (Naive 250)
              Hfew) as (R & HR & _ & Hiff).
  exists R. split; [exact HR|].
  apply (Hiff (3, row_free)). simpl. tauto.
Defined.

(** ** How calls of [filter_data] relate *)

Lemma keep_subsequence_impl (p q : Row -> bool) (df : DataFrame) :
  (forall r, p r = true -> q r = true) ->
  subsequence (keep p df) (keep q df).
Proof.
  intros Hpq. unfold keep. induction df as [|lr df IH]; simpl; [constructor|].
  destruct (p (snd lr)) eqn:Ep.
  - rewrite (Hpq _ Ep). now constructor.
  - destruct (q (snd lr)); [now constructor | exact IH].
Qed.

Lemma In_assign_keep (p : Row -> bool) (df : DataFrame) (lr : label * Row) :
  In lr (assign_orderDate_utc (keep p df))
  <-> exists lr0, In lr0 df /\ p (snd lr0) = true
                  /\ lr = (fst lr0, normalize_row (snd lr0)).
Proof.
  unfold assign_orderDate_utc, keep. rewrite in_map_iff. split.
  - intros [lr0 [Heq Hin]]. apply filter_In in Hin. exists lr0.
    repeat split; [tauto | tauto | now symmetry].
  - intros [lr0 (Hin & Hp & ->)]. exists lr0. split; [reflexivity|].
    apply filter_In. now split.
Qed.

(** X8: widening the selection never loses a row: if every selected
    category and store is also selected in a second call with the same
    bounds, the first result is a subsequence of the second. *)
Theorem filter_data_monotone (D : DataFrame)
    (categories categories' stores stores' : list string) (s e : Timestamp) :
  incl categories categories' -> incl stores stores' ->
  exists R R' : DataFrame,
    snd (filter_data D categories stores (Some s) (Some e)) = Ok R
    /\ snd (filter_data D categories' stores' (Some s) (Some e)) = Ok R'
    /\ subsequence R R'.
Proof.
  intros Hc Hs. rewrite !filter_data_keep. simpl.
  eexists. eexists. split; [reflexivity|]. split; [reflexivity|].
  apply subsequence_map, keep_subsequence_impl.
  intros r Hp. apply passes_iff in Hp. apply passes_iff.
  destruct Hp as (Hd & Hcat & Hst). auto.
Qed.

Lemma filter_data_monotone_witness :
  incl ["A"] ["A"; "C"] /\ incl ["S1"] ["S1"]
  /\ exists R R',
       snd (filter_data sample_data ["A"] ["S1"] (Some (Naive 0)) (Some (Naive 250)))
       = Ok R
       /\ snd (filter_data sample_data ["A"; "C"] ["S1"]
                           (Some (Naive 0)) (Some (Naive 250))) = Ok R'
       /\ subsequence R R'.
Proof.
  assert (H1 : incl ["A"] ["A"; "C"]) by (intros x [<-|[]]; now left).
  assert (H2 : incl ["S1"] ["S1"]) by apply incl_refl.
  split; [exact H1|]. split; [exact H2|].
  exact (filter_data_monotone sample_data _ _ _ _ (Naive 0) (Naive 250) H1 H2).
Defined.

(** X9: filtering a result again with a second selection and the same
    bounds keeps exactly its rows whose category and store are in the
    second selection, and the two selections can be applied in either
    order. *)
Theorem filter_data_successive (D R1 : DataFrame)
    (categories1 stores1 categories2 stores2 : list string) (s e : Timestamp) :
  snd (filter_data D categories1 stores1 (Some s) (Some e)) = Ok R1 ->
  exists R : DataFrame,
    snd (filter_data R1 categories2 stores2 (Some s) (Some e)) = Ok R
    /\ (forall lr, In lr R <->
                   In lr R1 /\ In (categoryName (snd lr)) categories2
                   /\ In (storeName (snd lr)) stores2)
    /\ exists R2 : DataFrame,
         snd (filter_data D categories2 stores2 (Some s) (Some e)) = Ok R2
         /\ snd (filter_data R2 categories1 stores1 (Some s) (Some e)) = Ok R.
Proof.
  intros H. rewrite filter_data_keep in H. simpl in H. injection H as <-.
  set (p1 := passes categories1 stores1 s e).
  set (p2 := passes categories2 stores2 s e).
  assert (H12 : snd (filter_data (assign_orderDate_utc (keep p1 D))
                                 categories2 stores2 (Some s) (Some e))
                = Ok (assign_orderDate_utc (keep (fun r => p1 r && p2 r) D))).
  { rewrite filter_data_keep. simpl. fold p2.
    rewrite keep_assign by apply passes_normalize.
    now rewrite assign_orderDate_utc_idem, keep_keep. }
  assert (H21 : snd (filter_data (assign_orderDate_utc (keep p2 D))
                                 categories1 stores1 (Some s) (Some e))
                = Ok (assign_orderDate_utc (keep (fun r => p1 r && p2 r) D))).
  { rewrite filter_data_keep. simpl. fold p1.
    rewrite keep_assign by apply passes_normalize.
    rewrite assign_orderDate_utc_idem, keep_keep.
    do 2 f_equal. apply keep_ext. intros r. apply andb_comm. }
  exists (assign_orderDate_utc (keep (fun r => p1 r && p2 r) D)).
  split; [exact H12|]. split.
  - intros lr. rewrite !In_assign_keep. split.
    + intros [lr0 (Hin & Hp & ->)]. apply andb_true_iff in Hp.
      destruct Hp as [Hp1 Hp2]. apply passes_iff in Hp2. simpl.
      split; [exists lr0; auto | tauto].
    + intros [[lr0 (Hin & Hp & ->)] [Hc Hs]]. exists lr0.
      split; [exact Hin|]. split; [|reflexivity].
      rewrite Hp. simpl. apply passes_iff. apply passes_iff in Hp.
      simpl in Hc, Hs. tauto.
  - exists (assign_orderDate_utc (keep p2 D)).
    split; [|exact H21]. rewrite filter_data_keep. reflexivity.
Qed.

Lemma filter_data_successive_witness :
  exists R,
    snd (filter_data [(0, normalize_row row_a1); (1, normalize_row row_a2);
                      (3, normalize_row row_free)]
                     ["C"] ["S1"] (Some (Naive 0)) (Some (Naive 250))) = Ok R
    /\ (In (3, normalize_row row_free) R
        <-> In (3, normalize_row row_free)
               [(0, normalize_row row_a1); (1, normalize_row row_a2);
                (3, normalize_row row_free)]
            /\ In (categoryName (normalize_row row_free)) ["C"]
            /\ In (storeName (normalize_row row_free)) ["S1"]).
Proof.
  destruct (filter_data_successive sample_data
              [(0, normalize_row row_a1); (1, normalize_row row_a2);
               (3, normalize_row row_free)]
              ["A"; "C"] ["S1"] ["C"] ["S1"] (Naive 0) (Naive 250))
    as (R & HR & Hiff & _).
  - vm_compute. reflexivity.
  - exists R. split; [exact HR|]. apply (Hiff (3, normalize_row row_free)).
Defined.

(** X10: every row that [filter_data] returns carries a tz-aware UTC
    orderDate (offset 0, never NaT, never naive), and a row of the
    dataset whose orderDate is NaT is never returned. *)
Theorem filter_data_rows_utc_aware (D R : DataFrame)
    (categories stores : list string) (start_date end_date : option Timestamp) :
  snd (filter_data D categories stores start_date end_date) = Ok R ->
  (forall lr, In lr R -> exists u, orderDate (snd lr) = Aware u 0)
  /\ (forall l r, In (l, r) D -> orderDate r = NaT ->
                  ~ In (l, normalize_row r) R).
Proof.
  destruct end_date as [e|]; [|rewrite filter_data_None_end; discriminate].
  destruct start_date as [s|]; [|rewrite filter_data_None_start; discriminate].
  rewrite filter_data_keep. simpl. intros H. injection H as <-. split.
  - intros lr Hin. apply In_assign_keep in Hin.
    destruct Hin as [lr0 (_ & Hp & ->)]. apply passes_iff in Hp.
    destruct Hp as [(a & b & u & _ & _ & Hu & _) _]. simpl.
    unfold instant in Hu. destruct (orderDate (snd lr0)); simpl in *;
      try discriminate; eexists; reflexivity.
  - intros l r _ Hnat Hin. apply In_assign_keep in Hin.
    destruct Hin as [lr0 (_ & Hp & Heq)]. apply passes_iff in Hp.
    destruct Hp as [(a & b & u & _ & _ & Hu & _) _].
    injection Heq as _ Heq.
    assert (Ht : to_datetime (orderDate (snd lr0)) = NaT).
    { rewrite <- Heq, Hnat. reflexivity. }
    unfold instant in Hu. rewrite Ht in Hu. discriminate Hu.
Qed.

Lemma filter_data_rows_utc_aware_witness :
  snd (filter_data sample_data ["A"] ["S1"] (Some (Naive 0)) (Some (Naive 250)))
  = Ok [(0, normalize_row row_a1); (1, normalize_row row_a2)]
  /\ exists u, orderDate (snd (1, normalize_row row_a2)) = Aware u 0.
Proof.
  assert (H : snd (filter_data sample_data ["A"] ["S1"]
                               (Some (Naive 0)) (Some (Naive 250)))
              = Ok [(0, normalize_row row_a1); (1, normalize_row row_a2)])
    by (vm_compute; reflexivity).
  split; [exact H|].
  apply (proj1 (filter_data_rows_utc_aware sample_data _ ["A"] ["S1"]
                  (Some (Naive 0)) (Some (Naive 250)) H)).
  right. now left.
Defined.

(** X11: a NaT bound raises nothing and matches nothing: with NaT for
    the start or for the end of the range, [filter_data] and
    [filter_data_by_date] return an empty frame (and an empty table). *)
Theorem NaT_bound_matches_nothing (D : DataFrame)
    (categories stores : list string) (b : Timestamp) :
  snd (filter_data D categories stores (Some NaT) (Some b)) = Ok []
  /\ snd (filter_data D categories stores (Some b) (Some NaT)) = Ok []
  /\ snd (filter_data_by_date D (Some NaT) (Some b)) = Ok ([], [])
  /\ snd (filter_data_by_date D (Some b) (Some NaT)) = Ok ([], []).
Proof.
  rewrite !filter_data_keep, !filter_data_by_date_keep. cbv zeta. simpl snd.
  assert (H1 : forall t, in_range NaT b t = false) by reflexivity.
  assert (H2 : forall t, in_range b NaT t = false).
  { intros t. unfold in_range. simpl. destruct (instant b); reflexivity. }
  rewrite !keep_none; try (intros r; unfold passes; rewrite ?H1, ?H2; reflexivity).
  repeat split.
Qed.

(** X12: boolean indexing keeps the index labels: the labels of the
    result of [filter_data] are a subsequence of the labels of the
    dataset, so they stay distinct when those of the dataset are. *)
Theorem filter_data_keeps_labels (D R : DataFrame)
    (categories stores : list string) (start_date end_date : option Timestamp) :
  snd (filter_data D categories stores start_date end_date) = Ok R ->
  subsequence (index R) (index D)
  /\ (NoDup (index D) -> NoDup (index R)).
Proof.
  destruct end_date as [e|]; [|rewrite filter_data_None_end; discriminate].
  destruct start_date as [s|]; [|rewrite filter_data_None_start; discriminate].
  rewrite filter_data_keep. simpl. intros H. injection H as <-. split.
  - rewrite index_assign_orderDate_utc. unfold index.
    apply subsequence_map, subsequence_filter.
  - apply NoDup_index_filtered.
Qed.

Lemma filter_data_keeps_labels_witness :
  subsequence [0; 1] (index sample_data) /\ NoDup [0; 1].
Proof.
  destruct (filter_data_keeps_labels sample_data
              [(0, normalize_row row_a1); (1, normalize_row row_a2)]
              ["A"] ["S1"] (Some (Naive 0)) (Some (Naive 250)))
    as [Hsub Hnd].
  - vm_compute. reflexivity.
  - split; [exact Hsub|]. apply Hnd.
    simpl. repeat constructor; simpl; intuition discriminate.
Defined.

(** ** The rows of an aggregation *)

Lemma insert_key_sorted (k : string) (ks : list string) :
  Sorted key_le ks -> Sorted key_le (insert_key k ks).
Proof.
  induction ks as [|k' ks IH]; simpl; intros Hs.
  - repeat constructor.
  - destruct (String.leb k k') eqn:E.
    + constructor; [exact Hs|]. constructor. exact E.
    + inversion Hs as [|? ? Hs' Hhd]; subst.
      constructor; [now apply IH|].
      assert (Hk : key_le k' k).
      { unfold key_le. destruct (String.leb_total k k') as [H|H]; congruence. }
      destruct ks as [|k'' ks]; simpl.
      * constructor. exact Hk.
      * destruct (String.leb k k''); constructor; [exact Hk|].
        now inversion Hhd.
Qed.

Lemma sort_keys_sorted (ks : list string) : Sorted key_le (sort_keys ks).
Proof.
  induction ks as [|k ks IH]; simpl; [constructor|].
  now apply insert_key_sorted.
Qed.

(** X13: for every grouping column, the table of either aggregation has
    one row per distinct key of the frame: its keys are distinct, in
    ascending order, and a key has a row exactly when some record of the
    frame carries it. *)
Theorem aggregate_keys_sorted_distinct (key_of : Row -> string) (df : DataFrame) :
  map key (aggregate_by_date key_of df) = map key (aggregate_overall key_of df)
  /\ NoDup (map key (aggregate_overall key_of df))
  /\ Sorted key_le (map key (aggregate_overall key_of df))
  /\ forall k, In k (map key (aggregate_overall key_of df))
               <-> exists lr, In lr df /\ key_of (snd lr) = k.
Proof.
  destruct (aggregate_by_date_totals key_of df) as (_ & _ & _ & ->).
  destruct (aggregate_overall_totals key_of df) as (_ & _ & _ & ->).
  rewrite groupby_agg_keys.
  split; [reflexivity|].
  split; [apply NoDup_group_keys|].
  split; [apply sort_keys_sorted|].
  intros k. apply In_group_keys.
Qed.

Lemma In_groupby_agg (key_of : Row -> string) (df : DataFrame) (t : Totals) :
  NoDup (index df) ->
  In t (groupby_agg key_of df) ->
  let g := filter (fun lr => String.eqb (key_of (snd lr)) (t_key t)) df in
  In (t_key t) (group_keys key_of df)
  /\ t_sales t = Qsum (map (weighted sellingPrice) (rows g))
  /\ t_cost t = Qsum (map (weighted costPrice) (rows g))
  /\ t_quantity t = wrap_int64 (Zsum (map quantity (rows g))).
Proof.
  intros Hnd Hin. unfold groupby_agg, groupby in Hin.
  rewrite map_map in Hin. apply in_map_iff in Hin.
  destruct Hin as [k [<- Hk]]. simpl.
  rewrite !times_quantity_sum_group by assumption.
  rewrite Series_sum_Z_col. repeat split. exact Hk.
Qed.

(** X14: in a frame with distinct labels, the row of a key in either
    aggregation is computed from the records with that key and from no
    other, of which there is at least one: total_sales and total_cost
    are the sums of the series of their terms sellingPrice x quantity
    and costPrice x quantity, each under the label of its record,
    total_quantity is the int64 sum of their quantities, and profit is
    total_sales - total_cost. *)
Theorem aggregate_row_is_group_total (key_of : Row -> string) (df : DataFrame)
    (a : AggRow) :
  NoDup (index df) ->
  In a (aggregate_by_date key_of df) \/ In a (aggregate_overall key_of df) ->
  let g := filter (fun lr => String.eqb (key_of (snd lr)) (key a)) df in
  g <> []
  /\ total_sales a = Series_sum (map (term sellingPrice) g)
  /\ total_cost a = Series_sum (map (term costPrice) g)
  /\ total_quantity a = wrap_int64 (Zsum (map quantity (rows g)))
  /\ profit a = (total_sales a - total_cost a)%Q.
Proof.
  intros Hnd Hin.
  assert (Ht : exists t margin, In t (groupby_agg key_of df)
                                /\ a = with_profit margin t).
  { destruct Hin as [Hin|Hin]; apply in_map_iff in Hin;
      destruct Hin as [t [<- Ht]]; eauto. }
  destruct Ht as (t & margin & Ht & ->). simpl.
  destruct (In_groupby_agg key_of df t Hnd Ht) as (Hk & Hs & Hc & Hq).
  rewrite !Series_sum_terms.
  split; [|repeat split; assumption].
  apply In_group_keys in Hk. destruct Hk as [lr [Hlr Hkey]].
  intros Hnil.
  assert (Hin' : In lr (filter (fun lr => String.eqb (key_of (snd lr)) (t_key t)) df)).
  { apply filter_In. split; [exact Hlr|]. now apply String.eqb_eq. }
  rewrite Hnil in Hin'. exact Hin'.
Qed.

Lemma aggregate_row_is_group_total_witness :
  let a := with_profit margin_on_sales
             (mkTotals "A" (10 * 2 + (10 * 1 + 0)) (6 * 2 + (6 * 1 + 0)) 3) in
  NoDup (index sample_data)
  /\ In a (aggregate_by_date categoryName sample_data)
  /\ total_sales a == 30 /\ total_cost a == 18
  /\ total_quantity a = 3%Z /\ profit a == 12.
Proof.
  intros a.
  assert (Hnd : NoDup (index sample_data)).
  { simpl. repeat constructor; simpl; intuition discriminate. }
  assert (Hin : In a (aggregate_by_date categoryName sample_data))
    by (left; vm_compute; reflexivity).
  split; [exact Hnd|]. split; [exact Hin|].
  destruct (aggregate_row_is_group_total categoryName sample_data a Hnd
              (or_introl Hin)) as (_ & Hs & Hc & Hq & Hp).
  rewrite Hp, Hs, Hc, Hq.
  repeat split; vm_compute; reflexivity.
Defined.

(** ** Sums of the derived columns *)

Lemma Qsum_nonneg (l : list Q) : (forall q, In q l -> 0 <= q)%Q -> (0 <= Qsum l)%Q.
Proof.
  induction l as [|q l IH]; intros H; simpl; [apply Qle_refl|].
  assert (0 <= q)%Q by (apply H; now left).
  assert (0 <= Qsum l)%Q by (apply IH; intros x Hx; apply H; now right).
  lra.
Qed.

Lemma inject_Z_nonneg (z : Z) : (0 <= z)%Z -> (0 <= inject_Z z)%Q.
Proof. intros Hz. unfold Qle. simpl. lia. Qed.

(** ** Frames without a negative price or quantity *)

Lemma weighted_nonneg (c : Row -> Q) (r : Row) :
  (0 <= c r)%Q -> (0 <= quantity r)%Z -> (0 <= weighted c r)%Q.
Proof.
  intros Hc Hq. unfold weighted.
  apply Qmult_le_0_compat; [exact Hc | now apply inject_Z_nonneg].
Qed.

Lemma groupby_agg_nonneg (key_of : Row -> string) (df : DataFrame) (t : Totals) :
  NoDup (index df) ->
  (forall lr, In lr df -> nonneg_row (snd lr)) ->
  In t (groupby_agg key_of df) ->
  (0 <= t_sales t)%Q /\ (0 <= t_cost t)%Q.
Proof.
  intros Hnd Hpos Ht.
  destruct (In_groupby_agg key_of df t Hnd Ht) as (_ & -> & -> & _).
  split; apply Qsum_nonneg; intros q Hq; unfold rows, values in Hq;
    rewrite map_map in Hq; apply in_map_iff in Hq;
    destruct Hq as [lr [<- Hlr]]; apply filter_In in Hlr;
    destruct Hlr as [Hlr _]; destruct (Hpos lr Hlr) as (Hs & Hc & Hq);
    now apply weighted_nonneg.
Qed.

(** X16: for a frame with distinct labels and no negative price or
    quantity, a zero denominator in the overall analysis always gives
    the margin NaN, never an infinity; in the by-date aggregation a
    group with zero sales gets NaN or -Infinity, never +Infinity. *)
Theorem nonneg_zero_denominator (key_of : Row -> string) (df : DataFrame) :
  NoDup (index df) ->
  (forall lr, In lr df -> nonneg_row (snd lr)) ->
  (forall a, In a (aggregate_overall key_of df) ->
             total_sales a + total_cost a == 0 -> profit_margin a = NaN)
  /\ (forall a, In a (aggregate_by_date key_of df) ->
                total_sales a == 0 ->
                profit_margin a = NaN \/ profit_margin a = NegInf).
Proof.
  intros Hnd Hpos. split; intros a Ha Hz; apply in_map_iff in Ha;
    destruct Ha as [t [<- Ht]];
    destruct (groupby_agg_nonneg key_of df t Hnd Hpos Ht) as [Hs Hc];
    simpl in *.
  - unfold margin_on_sales_plus_cost. rewrite truediv_zero by exact Hz.
    assert (Hp : t_sales t - t_cost t == 0) by lra.
    apply Qeq_alt in Hp. unfold zero_division. now rewrite Hp.
  - unfold margin_on_sales. rewrite truediv_zero by exact Hz.
    unfold zero_division.
    destruct (Qcompare (t_sales t - t_cost t) 0) eqn:E; simpl; auto.
    apply Qgt_alt in E. lra.
Qed.

Lemma nonneg_zero_denominator_witness :
  let a := with_profit margin_on_sales
             (mkTotals "C" (0 * 1 + 0) (5 * 1 + 0) (1 + 0)) in
  NoDup (index sample_data)
  /\ In a (aggregate_by_date categoryName sample_data)
  /\ total_sales a == 0
  /\ (profit_margin a = NaN \/ profit_margin a = NegInf).
Proof.
  intros a.
  assert (Hnd : NoDup (index sample_data)).
  { simpl. repeat constructor; simpl; intuition discriminate. }
  assert (Hpos : forall lr, In lr sample_data -> nonneg_row (snd lr)).
  { intros lr Hin. simpl in Hin.
    repeat (destruct Hin as [<-|Hin]; [vm_compute; intuition discriminate|]).
    contradiction. }
  assert (Hin : In a (aggregate_by_date categoryName sample_data))
    by (right; right; left; vm_compute; reflexivity).
  assert (Hz : total_sales a == 0) by (vm_compute; reflexivity).
  split; [exact Hnd|]. split; [exact Hin|]. split; [exact Hz|].
  exact (proj2 (nonneg_zero_denominator categoryName sample_data Hnd Hpos)
               a Hin Hz).
Defined.

(** X17: for a frame with distinct labels and no negative price or
    quantity, a margin with a non-zero denominator is a finite number,
    between -100 and 100 in the overall analysis and at most 100 in the
    by-date aggregation. *)
Theorem nonneg_margin_bounds (key_of : Row -> string) (df : DataFrame) :
  NoDup (index df) ->
  (forall lr, In lr df -> nonneg_row (snd lr)) ->
  (forall a, In a (aggregate_overall key_of df) ->
             ~ total_sales a + total_cost a == 0 ->
             exists q, profit_margin a = Finite q /\ (-100 <= q)%Q /\ (q <= 100)%Q)
  /\ (forall a, In a (aggregate_by_date key_of df) ->
                ~ total_sales a == 0 ->
                exists q, profit_margin a = Finite q /\ (q <= 100)%Q).
Proof.
  intros Hnd Hpos. split; intros a Ha Hz; apply in_map_iff in Ha;
    destruct Ha as [t [<- Ht]];
    destruct (groupby_agg_nonneg key_of df t Hnd Hpos Ht) as [Hs Hc];
    simpl in *.
  - unfold margin_on_sales_plus_cost. rewrite truediv_nonzero by exact Hz.
    simpl. eexists. split; [reflexivity|].
    set (s := t_sales t) in *. set (c := t_cost t) in *.
    assert (Hd : (0 < s + c)%Q).
    { apply Qle_lteq in Hs. apply Qle_lteq in Hc.
      destruct Hs as [Hs|Hs], Hc as [Hc|Hc]; lra. }
    assert (H1 : ((s - c) / (s + c) <= 1)%Q)
      by (apply Qle_shift_div_r; [exact Hd | lra]).
    assert (H2 : (-1 <= (s - c) / (s + c))%Q)
      by (apply Qle_shift_div_l; [exact Hd | lra]).
    lra.
  - unfold margin_on_sales. rewrite truediv_nonzero by exact Hz.
    simpl. eexists. split; [reflexivity|].
    set (s := t_sales t) in *. set (c := t_cost t) in *.
    assert (Hd : (0 < s)%Q).
    { apply Qle_lteq in Hs. destruct Hs as [Hs|Hs]; [exact Hs|].
      exfalso. apply Hz. lra. }
    assert (H1 : ((s - c) / s <= 1)%Q)
      by (apply Qle_shift_div_r; [exact Hd | lra]).
    lra.
Qed.

Lemma nonneg_margin_bounds_witness :
  let a := with_profit margin_on_sales
             (mkTotals "A" (10 * 2 + (10 * 1 + 0)) (6 * 2 + (6 * 1 + 0)) (2 + (1 + 0))) in
  NoDup (index sample_data)
  /\ In a (aggregate_by_date categoryName sample_data)
  /\ ~ total_sales a == 0
  /\ exists q, profit_margin a = Finite q /\ (q <= 100)%Q.
Proof.
  intros a.
  assert (Hnd : NoDup (index sample_data)).
  { simpl. repeat constructor; simpl; intuition discriminate. }
  assert (Hpos : forall lr, In lr sample_data -> nonneg_row (snd lr)).
  { intros lr Hin. simpl in Hin.
    repeat (destruct Hin as [<-|Hin]; [vm_compute; intuition discriminate|]).
    contradiction. }
  assert (Hin : In a (aggregate_by_date categoryName sample_data))
    by (left; vm_compute; reflexivity).
  assert (Hz : ~ total_sales a == 0) by (vm_compute; discriminate).
  split; [exact Hnd|]. split; [exact Hin|]. split; [exact Hz|].
  exact (proj2 (nonneg_margin_bounds categoryName sample_data Hnd Hpos)
               a Hin Hz).
Defined.

(** ** The overall analysis *)

Lemma group_keys_nil (key_of : Row -> string) (df : DataFrame) :
  group_keys key_of df = [] -> df = [].
Proof.
  intros Hnil. destruct df as [|lr df]; [reflexivity|].
  assert (Hin : In (key_of (snd lr)) (group_keys key_of (lr :: df))).
  { apply In_group_keys. exists lr. split; [now left | reflexivity]. }
  rewrite Hnil in Hin. contradiction.
Qed.

(** X18: the overall analysis is skipped exactly when the filtered frame
    has no row, in main.py and in main_bakcup.py alike; when it is
    computed, its table is not empty and has one row for each category
    (each brand, in main_bakcup.py) of the filtered frame. *)
Theorem overall_analysis_iff_rows (filtered_data : DataFrame) :
  (overall_analysis filtered_data = None <-> filtered_data = [])
  /\ (Backup.overall_analysis filtered_data = None <-> filtered_data = [])
  /\ (forall A, overall_analysis filtered_data = Some A ->
                A <> [] /\ map key A = group_keys categoryName filtered_data)
  /\ (forall A, Backup.overall_analysis filtered_data = Some A ->
                A <> []
                /\ map Backup.brand A = group_keys brandName filtered_data).
Proof.
  unfold overall_analysis, Backup.overall_analysis.
  destruct filtered_data as [|lr df]; simpl.
  - repeat split; intros; try discriminate; reflexivity.
  - split; [split; discriminate|]. split; [split; discriminate|].
    split; intros A HA; injection HA as <-.
    + assert (Hk : map key (aggregate_overall categoryName (lr :: df))
                   = group_keys categoryName (lr :: df)).
      { destruct (aggregate_overall_totals categoryName (lr :: df))
          as (_ & _ & _ & ->). apply groupby_agg_keys. }
      split; [|exact Hk].
      intros Hnil. rewrite Hnil in Hk. symmetry in Hk.
      apply group_keys_nil in Hk. discriminate Hk.
    + assert (Hk : map Backup.brand
                     (map Backup.with_brand_profit
                          (groupby_agg brandName (lr :: df)))
                   = group_keys brandName (lr :: df)).
      { rewrite map_map. simpl. apply groupby_agg_keys. }
      split; [|exact Hk].
      intros Hnil. rewrite Hnil in Hk. symmetry in Hk.
      apply group_keys_nil in Hk. discriminate Hk.
Qed.

Lemma overall_analysis_iff_rows_witness :
  exists A, overall_analysis sample_data = Some A
            /\ A <> [] /\ map key A = ["A"; "B"; "C"].
Proof.
  eexists. split; [reflexivity|].
  destruct (overall_analysis_iff_rows sample_data) as (_ & _ & H & _).
  destruct (H _ eq_refl) as [Hne Hk]. split; [exact Hne|].
  rewrite Hk. vm_compute. reflexivity.
Defined.

(** X20: in main_bakcup.py the overall analysis by brand keeps the
    quantities: its total_quantity column adds up to the sum of the
    quantities of the filtered frame in int64 arithmetic, and exactly so
    when no quantity is negative and their sum is below 2^63; the profit
    of each brand is its total_sales minus its total_cost. *)
Theorem backup_overall_analysis_totals (filtered_data : DataFrame)
    (A : list Backup.BrandRow) :
  Backup.overall_analysis filtered_data = Some A ->
  wrap_int64 (Zsum (map Backup.brand_quantity A))
  = wrap_int64 (Zsum (map quantity (rows filtered_data)))
  /\ ((forall lr, In lr filtered_data -> (0 <= quantity (snd lr))%Z) ->
      (Zsum (map quantity (rows filtered_data)) < 2 ^ 63)%Z ->
      Zsum (map Backup.brand_quantity A)
      = Zsum (map quantity (rows filtered_data)))
  /\ Forall (fun b => Backup.brand_profit b
                      = (Backup.brand_sales b - Backup.brand_cost b)%Q) A.
Proof.
  intros HA. unfold Backup.overall_analysis in HA.
  destruct (0 <? List.length filtered_data); [|discriminate HA].
  injection HA as <-. rewrite !map_map. simpl.
  split; [apply groupby_agg_quantity_wraps|].
  split; [apply groupby_agg_quantity_exact|].
  apply Forall_forall. intros b Hb. apply in_map_iff in Hb.
  destruct Hb as [t [<- _]]. reflexivity.
Qed.

Lemma backup_overall_analysis_totals_witness :
  exists A, Backup.overall_analysis sample_data = Some A
            /\ Zsum (map Backup.brand_quantity A) = 8%Z.
Proof.
  eexists. split; [reflexivity|].
  destruct (backup_overall_analysis_totals sample_data _ eq_refl)
    as (_ & Hq & _).
  rewrite Hq; [reflexivity | | reflexivity].
  intros lr Hin. simpl in Hin.
  repeat (destruct Hin as [<-|Hin]; [simpl; lia|]). contradiction.
Defined.

(** ** The most frequent values of a column *)

Lemma top_values_is_top_n (s : Series string) (n : nat) :
  is_top_n (values s) n (map fst (head n (value_counts s))).
Proof.
  unfold is_top_n, head. set (vc := value_counts s).
  assert (Hnd : NoDup (map fst vc)).
  { eapply Permutation_NoDup;
      [symmetry; apply value_counts_keys | apply NoDup_unique]. }
  split; [|split; [|split]].
  - rewrite length_map, length_firstn. unfold vc.
    now rewrite value_counts_length.
  - rewrite <- (firstn_skipn n vc), map_app in Hnd.
    now apply NoDup_app_remove_r in Hnd.
  - intros v Hv. apply In_value_counts_keys. fold vc.
    rewrite <- (firstn_skipn n vc), map_app. apply in_or_app. now left.
  - intros v v' Hv Hv' Hout.
    apply in_map_iff in Hv. destruct Hv as [p [<- Hp]].
    assert (Hq : In (v', count_occ string_dec (values s) v') vc).
    { apply (Permutation_in _ (Permutation_sym (value_counts_perm s))).
      unfold counted. apply in_map_iff. exists v'. split; [reflexivity|].
      now apply <- In_unique. }
    rewrite <- (firstn_skipn n vc) in Hq. apply in_app_or in Hq.
    destruct Hq as [Hq|Hq].
    + exfalso. apply Hout. apply in_map_iff.
      now exists (v', count_occ string_dec (values s) v').
    + pose proof (value_counts_sorted s) as Hs. fold vc in Hs.
      rewrite <- (firstn_skipn n vc) in Hs.
      pose proof (StronglySorted_app_inv _ _ _ Hs _ _ Hp Hq) as Hle.
      unfold fewer_rows in Hle. simpl in Hle.
      rewrite (value_counts_count s p) in Hle; [exact Hle|].
      change (In p vc). rewrite <- (firstn_skipn n vc).
      apply in_or_app. now left.
Qed.

(** X21: for every [n], [get_top_categories], [get_top_stores] and the
    [get_top_brands] of main_bakcup.py return the [n] most frequent
    values of their column: [n] of them, or all if the column has fewer
    distinct values, none twice, each occurring in the data and at least
    as often as any value left out. *)
Theorem get_top_returns_most_frequent (data : DataFrame) (n : nat) :
  is_top_n (values (col categoryName data)) n (get_top_categories data n)
  /\ is_top_n (values (col storeName data)) n (get_top_stores data n)
  /\ is_top_n (values (col brandName data)) n (Backup.get_top_brands data n).
Proof. repeat split; apply top_values_is_top_n. Qed.

(** X22: the lists for a smaller [n] are prefixes of those for a larger
    one: raising n_categories only appends categories to the options
    offered, it never reorders or drops one. *)
Theorem get_top_prefix (data : DataFrame) (n m : nat) :
  n <= m ->
  get_top_categories data n = firstn n (get_top_categories data m)
  /\ get_top_stores data n = firstn n (get_top_stores data m)
  /\ Backup.get_top_brands data n = firstn n (Backup.get_top_brands data m).
Proof.
  intros Hnm.
  unfold get_top_categories, get_top_stores, Backup.get_top_brands, head.
  rewrite <- !firstn_map, !firstn_firstn.
  replace (Nat.min n m) with n by lia. repeat split.
Qed.

Lemma get_top_prefix_witness :
  2 <= 3
  /\ get_top_categories sample_data 2
     = firstn 2 (get_top_categories sample_data 3).
Proof.
  assert (H : 2 <= 3) by lia.
  split; [exact H|]. exact (proj1 (get_top_prefix sample_data 2 3 H)).
Defined.

(** ** An inverted range *)

Lemma in_range_inverted (s e t : Timestamp) (a b : Z) :
  instant s = Some a -> instant e = Some b -> (b < a)%Z ->
  in_range s e t = false.
Proof.
  intros Hs He Hlt. unfold in_range. rewrite Hs, He.
  destruct (instant t) as [u|]; [|reflexivity].
  apply andb_false_iff.
  destruct (Z.leb_spec a u); [right; apply Z.leb_gt; lia | now left].
Qed.

(** X23: a range whose end lies before its start is not rejected: both
    filter functions return an empty frame (and an empty table), without
    raising. *)
Theorem inverted_range_matches_nothing (D : DataFrame)
    (categories stores : list string) (s e : Timestamp) (a b : Z) :
  instant s = Some a -> instant e = Some b -> (b < a)%Z ->
  filter_data D categories stores (Some s) (Some e)
  = (assign_orderDate_utc D, Ok [])
  /\ filter_data_by_date D (Some s) (Some e)
     = (assign_orderDate_utc D, Ok ([], [])).
Proof.
  intros Hs He Hlt.
  rewrite filter_data_keep, filter_data_by_date_keep. cbv zeta.
  rewrite !keep_none; [split; reflexivity | |].
  - intros r. now apply (in_range_inverted s e _ a b).
  - intros r. unfold passes.
    now rewrite (in_range_inverted s e _ a b).
Qed.

Lemma inverted_range_matches_nothing_witness :
  snd (filter_data sample_data ["A"] ["S1"] (Some (Naive 250)) (Some (Naive 0)))
  = Ok [].
Proof.
  destruct (inverted_range_matches_nothing sample_data ["A"] ["S1"]
              (Naive 250) (Naive 0) 250 0 eq_refl eq_refl) as [H _].
  - reflexivity.
  - rewrite H. reflexivity.
Defined.
